(** * shutdown-aws-instances: a shallow embedding of [lambda_function.py]

    The handler lists the running EC2 virtual machines and the RDS database
    instances of an account and stops them.  The Python code is embedded as
    functions in a small trace-and-exception monad; the cloud provider (boto3)
    is a parameter whose answers may depend on the whole history of calls. *)

From Stdlib Require Import List String Ascii ZArith NArith Lia Bool.
From Stdlib Require Import Decimal DecimalString.
Import ListNotations.

Set Warnings "-register-all".

Local Open Scope string_scope.
Local Open Scope list_scope.

(** Concatenation of strings; [++] is kept for lists. *)
Infix "+++" := String.append (right associativity, at level 60).

(** ** Python exceptions and results *)

(** The exception classes the code can meet.  [ClientError] is
    [botocore.exceptions.ClientError], the only class [turnoff_ec2_vms]
    catches; [BotoCoreError] stands for the provider library's other failures
    (connection, credentials, parameter validation), which are not subclasses
    of [ClientError].  Each carries the text [str(ex)] yields. *)
Inductive exn : Type :=
| ClientError (msg : string)
| BotoCoreError (msg : string)
| KeyError (key : string)
| TypeError (msg : string)
| RecursionError.

Definition is_ClientError (e : exn) : bool :=
  match e with ClientError _ => true | _ => false end.

(** [str(ex)] for the exceptions that carry a message. *)
Definition str_exn (e : exn) : string :=
  match e with
  | ClientError m | BotoCoreError m | TypeError m => m
  | KeyError k => "'" +++ k +++ "'"
  | RecursionError => "maximum recursion depth exceeded"
  end.

Inductive outcome (A : Type) : Type :=
| Ret (a : A)
| Raise (e : exn).
Arguments Ret {A} a.
Arguments Raise {A} e.

Definition obind {A B} (m : outcome A) (f : A -> outcome B) : outcome B :=
  match m with
  | Ret a => f a
  | Raise e => Raise e
  end.

(** ** Text formatting *)

(** [str(n)] for a Python int. *)
Definition str_int (z : Z) : string := NilZero.string_of_int (Z.to_int z).

Definition str_N (n : N) : string := NilEmpty.string_of_uint (N.to_uint n).

Fixpoint zeros (n : nat) : string :=
  match n with
  | O => ""
  | S n' => String "0" (zeros n')
  end.

(** ["%0<width>d" % n] for a non-negative [n]. *)
Definition zfill (width : nat) (n : N) : string :=
  let s := str_N n in zeros (width - String.length s) +++ s.

Fixpoint join (sep : string) (l : list string) : string :=
  match l with
  | [] => ""
  | [s] => s
  | s :: rest => s +++ sep +++ join sep rest
  end.

(** ** Dates and times *)

Record date : Type := mk_date { year : N; month : N; day : N }.

(** [utcoffset] is [tzinfo.utcoffset(dt)] in microseconds, [None] for a naive
    datetime. *)
Record datetime : Type := mk_datetime {
  dt_date : date;
  hour : N; minute : N; second : N; microsecond : N;
  utcoffset : option Z
}.

(** [date.isoformat()]: ["%04d-%02d-%02d"]. *)
Definition date_isoformat (d : date) : string :=
  zfill 4 (year d) +++ "-" +++ zfill 2 (month d) +++ "-" +++ zfill 2 (day d).

(** [_format_time] with [timespec='auto']. *)
Definition format_time (hh mm ss us : N) : string :=
  zfill 2 hh +++ ":" +++ zfill 2 mm +++ ":" +++ zfill 2 ss +++
  (if N.eqb us 0 then "" else "." +++ zfill 6 us).

(** [_format_offset]. *)
Definition format_offset (off : option Z) : string :=
  match off with
  | None => ""
  | Some off =>
      let sign := if Z.ltb off 0 then "-" else "+" in
      let a := Z.to_N (Z.abs off) in
      let hh := N.div a 3600000000 in
      let r := N.modulo a 3600000000 in
      let mm := N.div r 60000000 in
      let ss := N.modulo r 60000000 in
      sign +++ zfill 2 hh +++ ":" +++ zfill 2 mm +++
      (if N.eqb ss 0 then ""
       else ":" +++ zfill 2 (N.div ss 1000000) +++
            (if N.eqb (N.modulo ss 1000000) 0 then ""
             else "." +++ zfill 6 (N.modulo ss 1000000)))
  end.

(** [datetime.isoformat()] with the default separator ['T']. *)
Definition datetime_isoformat (d : datetime) : string :=
  date_isoformat (dt_date d) +++ "T" +++
  format_time (hour d) (minute d) (second d) (microsecond d) +++
  format_offset (utcoffset d).

(** ** Python values *)

(** The values a database record is built from.  botocore's response parser
    produces dicts keyed by strings, lists, strings, ints, booleans and
    timezone-aware datetimes; [PDate] and [PObject] (any other object, which
    the [json] module cannot serialize by itself, named by its type) are here
    for the encoder's other branches.  Floats are left out.  A dict is kept
    as its items in insertion order. *)
Inductive pyval : Type :=
| PNone
| PBool (b : bool)
| PInt (z : Z)
| PStr (s : string)
| PList (l : list pyval)
| PDict (items : list (string * pyval))
| PDate (d : date)
| PDateTime (d : datetime)
| PObject (type_name : string).

Definition record : Type := list (string * pyval).

(** [d[key]]. *)
Fixpoint getitem (d : record) (key : string) : outcome pyval :=
  match d with
  | [] => Raise (KeyError key)
  | (k, v) :: rest => if String.eqb k key then Ret v else getitem rest key
  end.

(** [v == s] for a string literal [s]: a value of another type is not equal
    to a string. *)
Definition eq_str (v : pyval) (s : string) : bool :=
  match v with
  | PStr t => String.eqb t s
  | _ => false
  end.

(** ** The JSON encoder *)

(** The double quote character, code point 34. *)
Definition dquote : ascii :=
  Ascii false true false false false true false false.

Definition hex_digit (n : N) : ascii :=
  match n with
  | 0%N => "0" | 1%N => "1" | 2%N => "2" | 3%N => "3" | 4%N => "4"
  | 5%N => "5" | 6%N => "6" | 7%N => "7" | 8%N => "8" | 9%N => "9"
  | 10%N => "a" | 11%N => "b" | 12%N => "c" | 13%N => "d" | 14%N => "e"
  | _ => "f"
  end%char.

(** The replacement [py_encode_basestring_ascii] makes for one character:
    a backslash, a double quote and every character outside the range from
    space to tilde are replaced, by the table [ESCAPE_DCT] where it has an
    entry and as a backslash, u and four hexadecimal digits otherwise.  A
    character of a [string] is a code point below 256; a string literal of
    Rocq has no escapes, so a backslash in one is that character. *)
Definition escape_char (c : ascii) : string :=
  let n := N_of_ascii c in
  if N.eqb n 92 then "\\"
  else if N.eqb n 34 then String "\" (String dquote "")
  else if N.eqb n 8 then "\b"
  else if N.eqb n 12 then "\f"
  else if N.eqb n 10 then "\n"
  else if N.eqb n 13 then "\r"
  else if N.eqb n 9 then "\t"
  else if (N.ltb n 32 || N.ltb 126 n)%bool then
    String "\" (String "u" (String "0" (String "0"
      (String (hex_digit (N.div n 16)) (String (hex_digit (N.modulo n 16)) "")))))
  else String c "".

Fixpoint escape (s : string) : string :=
  match s with
  | EmptyString => ""
  | String c rest => escape_char c +++ escape rest
  end.

Definition quote : string := String dquote "".

Definition encode_basestring_ascii (s : string) : string :=
  quote +++ escape s +++ quote.

Section JSONEncoder.

(** The [default] method of the encoder class: what to encode in place of
    an object the encoder does not know. *)
Variable default : pyval -> outcome pyval.

(** [_iterencode], with the text joined; [via_default] is its last branch. *)
Fixpoint encode_with (via_default : pyval -> outcome string) (o : pyval)
  : outcome string :=
  match o with
  | PNone => Ret "null"
  | PBool true => Ret "true"
  | PBool false => Ret "false"
  | PInt z => Ret (str_int z)
  | PStr s => Ret (encode_basestring_ascii s)
  | PList l =>
      obind
        ((fix elems (l : list pyval) : outcome (list string) :=
            match l with
            | [] => Ret []
            | x :: rest =>
                obind (encode_with via_default x) (fun s =>
                obind (elems rest) (fun ss => Ret (s :: ss)))
            end) l)
        (fun ss => Ret ("[" +++ join ", " ss +++ "]"))
  | PDict items =>
      obind
        ((fix pairs (l : list (string * pyval)) : outcome (list string) :=
            match l with
            | [] => Ret []
            | (k, v) :: rest =>
                obind (encode_with via_default v) (fun s =>
                obind (pairs rest) (fun ss =>
                Ret ((encode_basestring_ascii k +++ ": " +++ s) :: ss)))
            end) items)
        (fun ss => Ret ("{" +++ join ", " ss +++ "}"))
  | PDate _ | PDateTime _ | PObject _ => via_default o
  end.

(** The last branch is [o = _default(o)] followed by encoding the new [o];
    [depth] bounds how many results of [default] may be chained, as the
    interpreter's recursion limit does. *)
Fixpoint iterencode (depth : nat) (o : pyval) {struct depth} : outcome string :=
  encode_with
    (fun o' =>
       match depth with
       | O => Raise RecursionError
       | S depth' => obind (default o') (iterencode depth')
       end) o.

End JSONEncoder.

(** [sys.getrecursionlimit()]. *)
Definition recursion_limit : nat := 1000.

(** [json.dumps(obj, cls=C)], for an encoder class [C] given by its [default]
    method. *)
Definition json_dumps (default : pyval -> outcome pyval) (obj : pyval)
  : outcome string :=
  iterencode default recursion_limit obj.

(** [json.JSONEncoder.default]. *)
Definition JSONEncoder_default (obj : pyval) : outcome pyval :=
  let type_name :=
    match obj with
    | PNone => "NoneType" | PBool _ => "bool" | PInt _ => "int"
    | PStr _ => "str" | PList _ => "list" | PDict _ => "dict"
    | PDate _ => "date" | PDateTime _ => "datetime" | PObject t => t
    end in
  Raise (TypeError ("Object of type " +++ type_name +++ " is not JSON serializable")).

(** [DateTimeEncoder.default]: the [if] has no [else], and the method does not
    call the base class, so every other object falls off its end and the
    result is [None]. *)
Definition DateTimeEncoder_default (obj : pyval) : outcome pyval :=
  match obj with
  | PDate d => Ret (PStr (date_isoformat d))
  | PDateTime d => Ret (PStr (datetime_isoformat d))
  | _ => Ret PNone
  end.



(** ** The provider and the trace of an invocation *)

(** An [ec2.Instance] resource; the code reads its [id] and calls its [stop]. *)
Record Instance : Type := mk_Instance { id : string }.

Record Filter : Type := mk_Filter { Name : string; Values : list string }.

(** One page of [describe_db_instances]; the code reads its ['DBInstances']. *)
Record Page : Type := mk_Page { DBInstances : list record }.

(** What an invocation does to the outside, in order. *)
Inductive event : Type :=
| Print (line : string)
| InstancesFilter (Filters : list Filter) (MaxResults : Z)
| InstanceStop (instance : Instance) (Hibernate DryRun : bool)
| Paginate_describe_db_instances
| StopDBInstance (DBInstanceIdentifier : pyval).

Definition trace : Type := list event.

(** The answers of boto3 and of the account behind it.  Each may depend on
    everything that happened before the call.

    Iterating [ec2.instances.filter(...)] or a paginator fetches the pages of
    the listing one after the other, until the provider returns no
    continuation token; an answer is the pages fetched and, when fetching one
    of them failed, the exception that ended the iteration.  [MaxResults]
    is sent with every page request and bounds that page.

    A stop call answers [None] when it returns and [Some ex] when it raises. *)
Record provider : Type := mk_provider {
  instances_filter : trace -> list Filter -> Z -> list (list Instance) * option exn;
  instance_stop : trace -> Instance -> bool -> bool -> option exn;
  describe_db_instances : trace -> list Page * option exn;
  stop_db_instance : trace -> pyval -> option exn
}.

(** A computation: it reads the trace so far, extends it, and returns or
    raises. *)
Definition M (A : Type) : Type := trace -> outcome A * trace.

Definition ret {A} (a : A) : M A := fun t => (Ret a, t).

Definition bind {A B} (m : M A) (f : A -> M B) : M B :=
  fun t =>
    match m t with
    | (Ret a, t') => f a t'
    | (Raise e, t') => (Raise e, t')
    end.

Notation "x <- m ;; k" := (bind m (fun x => k))
  (at level 61, m at next level, right associativity).
Notation "m ;; k" := (bind m (fun _ => k))
  (at level 61, right associativity).

(** A pure step that may raise. *)
Definition lift {A} (r : outcome A) : M A := fun t => (r, t).

Definition print (line : string) : M unit := fun t => (Ret tt, t ++ [Print line]).

(** [try: body / except ClientError as ex: handler ex]. *)
Definition try_except_ClientError (body : M unit) (handler : exn -> M unit) : M unit :=
  fun t =>
    match body t with
    | (Ret a, t') => (Ret a, t')
    | (Raise ex, t') => if is_ClientError ex then handler ex t' else (Raise ex, t')
    end.

(** [for x in l: body x]. *)
Fixpoint for_each {A} (l : list A) (body : A -> M unit) : M unit :=
  match l with
  | [] => ret tt
  | x :: rest => body x ;; for_each rest body
  end.

(** [result.append(x)] for every [x] a loop yields. *)
Definition append_each {A} (result : list A) (xs : list A) : list A :=
  fold_left (fun result x => result ++ [x]) xs result.

Definition RUNNING_INSTANCES_STATE_CODE : Z := 16.

Section Lambda.

Variable aws : provider.

(** Python's [str()] of a value, which an f-string applies to what it
    interpolates. *)
Variable str : pyval -> string.

Definition call_instance_stop (instance : Instance) (Hibernate DryRun : bool) : M unit :=
  fun t =>
    let t' := t ++ [InstanceStop instance Hibernate DryRun] in
    match instance_stop aws t instance Hibernate DryRun with
    | None => (Ret tt, t')
    | Some ex => (Raise ex, t')
    end.

Definition call_stop_db_instance (DBInstanceIdentifier : pyval) : M unit :=
  fun t =>
    let t' := t ++ [StopDBInstance DBInstanceIdentifier] in
    match stop_db_instance aws t DBInstanceIdentifier with
    | None => (Ret tt, t')
    | Some ex => (Raise ex, t')
    end.

Definition get_ec2_vm_list : M (list Instance) :=
  fun t =>
    let Filters := [ {| Name := "instance-state-code";
                        Values := [str_int RUNNING_INSTANCES_STATE_CODE] |} ] in
    let t' := t ++ [InstancesFilter Filters 20] in
    match instances_filter aws t Filters 20 with
    | (pages, None) => (Ret (append_each [] (List.concat pages)), t')
    | (_, Some ex) => (Raise ex, t')
    end.

Definition get_rds_db_list : M (list record) :=
  fun t =>
    let t' := t ++ [Paginate_describe_db_instances] in
    match describe_db_instances aws t with
    | (pages, None) =>
        (Ret (fold_left (fun result page => append_each result (DBInstances page))
                        pages []), t')
    | (_, Some ex) => (Raise ex, t')
    end.

Definition turnoff_ec2_vms (ec2_vm_list : list Instance) (dry_run : bool) : M unit :=
  for_each ec2_vm_list (fun instance =>
    print ("Stopping VM: " +++ id instance) ;;
    try_except_ClientError
      (call_instance_stop instance false dry_run)
      (fun ex => print ("Exception: " +++ str_exn ex))).

Definition stop_rds_dbs (rds_db_list : list record) (dry_run : bool) : M unit :=
  for_each rds_db_list (fun db_instance =>
    text <- lift (json_dumps DateTimeEncoder_default (PDict db_instance)) ;;
    print ("Stopping DB: " +++ text) ;;
    if dry_run then ret tt
    else
      status <- lift (getitem db_instance "DBInstanceStatus") ;;
      if eq_str status "stopped" then
        ident <- lift (getitem db_instance "DBInstanceIdentifier") ;;
        print ("DB Instance " +++ str ident +++ " is stopped")
      else
        ident <- lift (getitem db_instance "DBInstanceIdentifier") ;;
        call_stop_db_instance ident).

Definition lambda_handler (event context : pyval) : M unit :=
  print "getting vm list" ;;
  vm_list <- get_ec2_vm_list ;;
  print "got ec2 list" ;;
  turnoff_ec2_vms vm_list false ;;
  db_list <- get_rds_db_list ;;
  stop_rds_dbs db_list false.

End Lambda.

(** ** Auxiliary definitions for the statements *)

(** The stop requests made on instances, in order. *)
Fixpoint stop_requests (t : trace) : list (Instance * bool * bool) :=
  match t with
  | [] => []
  | InstanceStop i h d :: rest => (i, h, d) :: stop_requests rest
  | _ :: rest => stop_requests rest
  end.

(** The identifiers of the stop requests made on databases, in order. *)
Fixpoint db_stop_requests (t : trace) : list pyval :=
  match t with
  | [] => []
  | StopDBInstance v :: rest => v :: db_stop_requests rest
  | _ :: rest => db_stop_requests rest
  end.

(** A character [py_encode_basestring_ascii] leaves as it is. *)
Definition plain_char (c : ascii) : bool :=
  let n := N_of_ascii c in
  (N.leb 32 n && N.leb n 126 && negb (N.eqb n 34) && negb (N.eqb n 92))%bool.

Fixpoint plain (s : string) : bool :=
  match s with
  | EmptyString => true
  | String c rest => (plain_char c && plain rest)%bool
  end.

(** The text [json.dumps(o, cls=DateTimeEncoder)] returns, by recursion on
    the value. *)
Fixpoint DateTimeEncoder_text (o : pyval) : string :=
  match o with
  | PNone => "null"
  | PBool true => "true"
  | PBool false => "false"
  | PInt z => str_int z
  | PStr s => encode_basestring_ascii s
  | PList l => "[" +++ join ", " (map DateTimeEncoder_text l) +++ "]"
  | PDict items =>
      "{" +++ join ", " (map (fun kv => encode_basestring_ascii (fst kv) +++ ": "
                                      +++ DateTimeEncoder_text (snd kv)) items) +++ "}"
  | PDate d => encode_basestring_ascii (date_isoformat d)
  | PDateTime d => encode_basestring_ascii (datetime_isoformat d)
  | PObject _ => "null"
  end.

(** [isinstance(obj, (datetime.date, datetime.datetime))]. *)
Definition is_temporal (obj : pyval) : bool :=
  match obj with
  | PDate _ | PDateTime _ => true
  | _ => false
  end.

(** [obj.isoformat()] of a date or datetime. *)
Definition isoformat (obj : pyval) : string :=
  match obj with
  | PDate d => date_isoformat d
  | PDateTime d => datetime_isoformat d
  | _ => ""
  end.

(** The log line of one database. *)
Definition stopping_db (db : record) : event :=
  Print ("Stopping DB: " +++ DateTimeEncoder_text (PDict db)).

(** The steps of [lambda_handler] before its last call, [stop_rds_dbs]. *)
Definition lambda_handler_listing (aws : provider) : M (list record) :=
  print "getting vm list" ;;
  vm_list <- get_ec2_vm_list aws ;;
  print "got ec2 list" ;;
  turnoff_ec2_vms aws vm_list false ;;
  get_rds_db_list aws.

(** The filter [get_ec2_vm_list] sends. *)
Definition running_filter : list Filter :=
  [ {| Name := "instance-state-code"; Values := ["16"] |} ].

(** ** Sample data *)

Definition vm1 : Instance := {| id := "i-0a1" |}.
Definition vm2 : Instance := {| id := "i-0b2" |}.
Definition vm3 : Instance := {| id := "i-0c3" |}.

Definition created : datetime :=
  {| dt_date := {| year := 2024; month := 3; day := 7 |};
     hour := 9; minute := 5; second := 0; microsecond := 0;
     utcoffset := Some 0%Z |}.

Definition db_orders : record :=
  [ ("DBInstanceIdentifier", PStr "orders");
    ("DBInstanceStatus", PStr "available");
    ("InstanceCreateTime", PDateTime created) ].

Definition db_archive : record :=
  [ ("DBInstanceIdentifier", PStr "archive");
    ("DBInstanceStatus", PStr "stopped");
    ("AllocatedStorage", PInt 20);
    ("LatestRestorableTime", PObject "Decimal") ].

(** A [str()] for the samples: the text of a string, the JSON text of any
    other value. *)
Definition sample_str (v : pyval) : string :=
  match v with
  | PStr s => s
  | _ => DateTimeEncoder_text v
  end.

(** A provider whose answers do not depend on the history. *)
Definition sample_provider (vms : list (list Instance)) (stop : Instance -> option exn)
    (dbs : list Page) (db_stop : pyval -> option exn) : provider :=
  {| instances_filter := fun _ _ _ => (vms, None);
     instance_stop := fun _ i _ _ => stop i;
     describe_db_instances := fun _ => (dbs, None);
     stop_db_instance := fun _ v => db_stop v |}.

(** Every call succeeds. *)
Definition healthy : provider :=
  sample_provider [[vm1; vm2]; [vm3]] (fun _ => None)
                  [ {| DBInstances := [db_orders] |}; {| DBInstances := [db_archive] |} ]
                  (fun _ => None).

(** The network is down when the instances are stopped: every stop call
    raises an exception that is not a [ClientError]. *)
Definition offline : provider :=
  sample_provider [[vm1; vm2]]
                  (fun _ => Some (BotoCoreError "Could not connect to the endpoint URL"))
                  [] (fun _ => None).

(** [vm1] is refused by the service, then the connection is lost on [vm2]. *)
Definition flaky : provider :=
  sample_provider [[vm1; vm2; vm3]]
    (fun i =>
       if String.eqb (id i) "i-0a1" then
         Some (ClientError "An error occurred (IncorrectInstanceState) when calling the StopInstances operation")
       else if String.eqb (id i) "i-0b2" then
         Some (BotoCoreError "Could not connect to the endpoint URL")
       else None)
    [] (fun _ => None).

(** The service refuses to stop the database [orders]. *)
Definition db_refused : provider :=
  sample_provider [] (fun _ => None)
    [ {| DBInstances := [db_archive; db_orders] |}; {| DBInstances := [db_archive] |} ]
    (fun v => if eq_str v "orders" then
                Some (ClientError "An error occurred (InvalidDBInstanceState) when calling the StopDBInstance operation")
              else None).

(** Twenty-one running instances, listed in pages of at most twenty. *)
Definition fleet (first count : nat) : list Instance :=
  map (fun n => {| id := "i-" +++ str_N (N.of_nat n) |}) (seq first count).

Definition crowded : provider :=
  sample_provider [fleet 1 20; fleet 21 1] (fun _ => None) [] (fun _ => None).

(** ** Definitions for the further properties *)

(** The stop request [stop_rds_dbs] owes a record without dry run: its
    identifier, unless its status is the string [stopped] (or a field is
    missing). *)
Definition to_stop (db : record) : list pyval :=
  match getitem db "DBInstanceStatus", getitem db "DBInstanceIdentifier" with
  | Ret status, Ret ident => if eq_str status "stopped" then [] else [ident]
  | _, _ => []
  end.

(** The two lines of the trace for an instance whose stop call returns. *)
Definition stopping_vm (dry_run : bool) (i : Instance) : list event :=
  [Print ("Stopping VM: " +++ id i); InstanceStop i false dry_run].

(** Calls on the compute service, and calls on the database service. *)
Definition is_vm_call (e : event) : bool :=
  match e with
  | InstancesFilter _ _ | InstanceStop _ _ _ => true
  | _ => false
  end.

Definition is_db_call (e : event) : bool :=
  match e with
  | Paginate_describe_db_instances | StopDBInstance _ => true
  | _ => false
  end.

(** The number of lists and dicts around the most deeply nested value of
    [o]: the depth the encoder's recursion reaches on it. *)
Fixpoint nesting (o : pyval) : nat :=
  match o with
  | PList l => S (fold_right Nat.max 0 (map nesting l))
  | PDict items => S (fold_right Nat.max 0 (map (fun kv => nesting (snd kv)) items))
  | _ => 0
  end.




(** Records that lack a field, and a record with a datetime two levels down. *)
Definition db_no_status : record :=
  [ ("DBInstanceIdentifier", PStr "ghost") ].

Definition db_no_identifier : record :=
  [ ("DBInstanceStatus", PStr "stopped") ].

Definition db_certified : record :=
  [ ("DBInstanceIdentifier", PStr "ledger");
    ("DBInstanceStatus", PStr "available");
    ("CertificateDetails",
     PDict [ ("CAIdentifier", PStr "rds-ca-rsa2048-g1");
             ("ValidTill", PList [PDateTime created]) ]) ].

(** A record whose strings hold a line break, a tabulation, a double quote,
    a backslash and a letter outside ASCII. *)
Definition db_noisy : record :=
  [ ("DBInstanceIdentifier", PStr ("a" +++ String (ascii_of_N 10) "b"));
    ("DBInstanceStatus", PStr "available");
    ("TagList",
     PList [ PDict [ ("Key", PStr (String (ascii_of_N 9) "k\" +++ quote));
                     ("Value", PStr (String (ascii_of_N 233) "")) ] ]) ].

(** The listing of the instances fails on its second page. *)
Definition vm_listing_fails : provider :=
  {| instances_filter := fun _ _ _ =>
       ([[vm1; vm2]], Some (ClientError "An error occurred (RequestLimitExceeded) when calling the DescribeInstances operation"));
     instance_stop := fun _ _ _ _ => None;
     describe_db_instances := fun _ => ([ {| DBInstances := [db_orders] |} ], None);
     stop_db_instance := fun _ _ => None |}.

(** The listing of the databases fails on its second page. *)
Definition db_listing_fails : provider :=
  {| instances_filter := fun _ _ _ => ([[vm1]], None);
     instance_stop := fun _ _ _ _ => None;
     describe_db_instances := fun _ =>
       ([ {| DBInstances := [db_orders] |} ],
        Some (BotoCoreError "Could not connect to the endpoint URL"));
     stop_db_instance := fun _ _ => None |}.

(** ** Lemmas on strings and on the encoder *)

Lemma append_assoc (a b c : string) : (a +++ b) +++ c = a +++ (b +++ c).
Proof. induction a as [|x a IH]; simpl; [reflexivity | now rewrite IH]. Qed.

Lemma append_nil_r (a : string) : a +++ "" = a.
Proof. induction a as [|x a IH]; simpl; [reflexivity | now rewrite IH]. Qed.

Lemma plain_app (a b : string) : plain (a +++ b) = (plain a && plain b)%bool.
Proof.
  induction a as [|x a IH]; simpl; [reflexivity|].
  rewrite IH. now rewrite andb_assoc.
Qed.

Lemma escape_char_plain (c : ascii) :
  plain_char c = true -> escape_char c = String c "".
Proof.
  destruct c as [[] [] [] [] [] [] [] []]; vm_compute;
    intro H; try discriminate H; reflexivity.
Qed.

Lemma escape_plain (s : string) : plain s = true -> escape s = s.
Proof.
  induction s as [|c s IH]; simpl; [reflexivity|].
  intro H. apply andb_true_iff in H. destruct H as [Hc Hs].
  rewrite (escape_char_plain c Hc), (IH Hs). reflexivity.
Qed.

Lemma plain_string_of_uint (d : uint) : plain (NilEmpty.string_of_uint d) = true.
Proof. induction d; simpl; try reflexivity; exact IHd. Qed.

Lemma plain_zeros (n : nat) : plain (zeros n) = true.
Proof. induction n; simpl; [reflexivity | exact IHn]. Qed.

Lemma plain_zfill (w : nat) (n : N) : plain (zfill w n) = true.
Proof.
  unfold zfill, str_N. rewrite plain_app, plain_zeros, plain_string_of_uint.
  reflexivity.
Qed.

Lemma plain_date_isoformat (d : date) : plain (date_isoformat d) = true.
Proof.
  unfold date_isoformat.
  repeat (rewrite plain_app || rewrite plain_zfill). reflexivity.
Qed.

Lemma plain_format_time (hh mm ss us : N) : plain (format_time hh mm ss us) = true.
Proof.
  unfold format_time.
  destruct (N.eqb us 0);
    repeat (rewrite plain_app || rewrite plain_zfill); reflexivity.
Qed.

Lemma plain_format_offset (off : option Z) : plain (format_offset off) = true.
Proof.
  destruct off as [off|]; [|reflexivity]. unfold format_offset.
  destruct (Z.ltb off 0);
    destruct (N.eqb (N.modulo (N.modulo (Z.to_N (Z.abs off)) 3600000000) 60000000) 0);
    try destruct (N.eqb (N.modulo (N.modulo (N.modulo (Z.to_N (Z.abs off)) 3600000000)
                                             60000000) 1000000) 0);
    repeat (rewrite plain_app || rewrite plain_zfill); reflexivity.
Qed.

Lemma plain_datetime_isoformat (d : datetime) : plain (datetime_isoformat d) = true.
Proof.
  unfold datetime_isoformat.
  repeat (rewrite plain_app || rewrite plain_date_isoformat
          || rewrite plain_format_time || rewrite plain_format_offset).
  reflexivity.
Qed.

Lemma plain_isoformat (obj : pyval) : plain (isoformat obj) = true.
Proof.
  destruct obj; simpl; try reflexivity;
    [apply plain_date_isoformat | apply plain_datetime_isoformat].
Qed.

(** Induction on values, with the hypothesis for every element of a list and
    every value of a dict. *)
Lemma pyval_nested_ind (P : pyval -> Prop) :
  P PNone -> (forall b, P (PBool b)) -> (forall z, P (PInt z)) ->
  (forall s, P (PStr s)) ->
  (forall l, Forall P l -> P (PList l)) ->
  (forall items, Forall (fun kv => P (snd kv)) items -> P (PDict items)) ->
  (forall d, P (PDate d)) -> (forall d, P (PDateTime d)) ->
  (forall n, P (PObject n)) ->
  forall o, P o.
Proof.
  intros HN HB HI HS HL HD HDa HDt HO.
  fix IH 1. intros [ | b | z | s | l | items | d | d | n ].
  - exact HN.
  - apply HB.
  - apply HI.
  - apply HS.
  - apply HL. induction l as [|x l IHl]; constructor; [apply IH | exact IHl].
  - apply HD. induction items as [|[k v] items IHl]; constructor;
      [apply IH | exact IHl].
  - apply HDa.
  - apply HDt.
  - apply HO.
Qed.

Lemma iterencode_DateTimeEncoder (n : nat) (o : pyval) :
  iterencode DateTimeEncoder_default (S n) o = Ret (DateTimeEncoder_text o).
Proof.
  induction o as [ | b | z | s | l IHl | items IHl | d | d | tn ]
    using pyval_nested_ind.
  - reflexivity.
  - destruct b; reflexivity.
  - reflexivity.
  - reflexivity.
  - simpl.
    match goal with
    | |- obind (?F l) _ = _ =>
        assert (E : F l = Ret (map DateTimeEncoder_text l))
    end.
    { induction IHl as [|x l Hx _ IH]; [reflexivity|].
      simpl in *. rewrite Hx. simpl. rewrite IH. reflexivity. }
    rewrite E. reflexivity.
  - simpl.
    match goal with
    | |- obind (?F items) _ = _ =>
        assert (E : F items =
                    Ret (map (fun kv => encode_basestring_ascii (fst kv) +++ ": "
                                        +++ DateTimeEncoder_text (snd kv)) items))
    end.
    { induction IHl as [|[k v] l Hx _ IH]; [reflexivity|].
      simpl in *. rewrite Hx. simpl. rewrite IH. reflexivity. }
    rewrite E. reflexivity.
  - destruct n; reflexivity.
  - destruct n; reflexivity.
  - destruct n; reflexivity.
Qed.

Lemma json_dumps_DateTimeEncoder (o : pyval) :
  json_dumps DateTimeEncoder_default o = Ret (DateTimeEncoder_text o).
Proof. unfold json_dumps, recursion_limit. apply iterencode_DateTimeEncoder. Qed.

Lemma join_map_In {A} (sep : string) (f : A -> string) (x : A) (l : list A) :
  In x l -> exists pre suf, join sep (map f l) = pre +++ f x +++ suf.
Proof.
  induction l as [|y l IH]; [intros []|].
  intros [->|Hin].
  - exists "". destruct l as [|z l].
    + exists "". simpl. now rewrite append_nil_r.
    + exists (sep +++ join sep (map f (z :: l))). reflexivity.
  - destruct (IH Hin) as (pre & suf & E).
    destruct l as [|z l]; [destruct Hin|].
    exists (f y +++ sep +++ pre), suf.
    change (join sep (map f (y :: z :: l)))
      with (f y +++ sep +++ join sep (map f (z :: l))).
    rewrite E. now rewrite !append_assoc.
Qed.

(** ** Lemmas on traces and loops *)

Lemma stop_requests_app (a b : trace) :
  stop_requests (a ++ b) = stop_requests a ++ stop_requests b.
Proof.
  induction a as [|e a IH]; [reflexivity|].
  destruct e; simpl; rewrite IH; reflexivity.
Qed.

Lemma db_stop_requests_app (a b : trace) :
  db_stop_requests (a ++ b) = db_stop_requests a ++ db_stop_requests b.
Proof.
  induction a as [|e a IH]; [reflexivity|].
  destruct e; simpl; rewrite IH; reflexivity.
Qed.

Lemma append_each_app {A} (xs result : list A) : append_each result xs = result ++ xs.
Proof.
  unfold append_each. revert result.
  induction xs as [|x xs IH]; intro result; simpl.
  - now rewrite app_nil_r.
  - rewrite IH, <- app_assoc. reflexivity.
Qed.

Lemma drain_pages (pages : list Page) (result : list record) :
  fold_left (fun result page => append_each result (DBInstances page)) pages result
  = result ++ List.concat (map DBInstances pages).
Proof.
  revert result. induction pages as [|p pages IH]; intro result; simpl.
  - now rewrite app_nil_r.
  - rewrite IH, append_each_app, <- app_assoc. reflexivity.
Qed.

Section Steps.

Variable aws : provider.
Variable str : pyval -> string.

(** One turn of the loop of [turnoff_ec2_vms]. *)
Lemma turnoff_ec2_vms_cons (i : Instance) (rest : list Instance) (d : bool) (t : trace) :
  turnoff_ec2_vms aws (i :: rest) d t =
  let t1 := t ++ [Print ("Stopping VM: " +++ id i)] in
  let t2 := t1 ++ [InstanceStop i false d] in
  match instance_stop aws t1 i false d with
  | None => turnoff_ec2_vms aws rest d t2
  | Some ex =>
      if is_ClientError ex
      then turnoff_ec2_vms aws rest d (t2 ++ [Print ("Exception: " +++ str_exn ex)])
      else (Raise ex, t2)
  end.
Proof.
  unfold turnoff_ec2_vms. simpl.
  unfold bind, print, try_except_ClientError, call_instance_stop.
  destruct (instance_stop aws _ i false d) as [ex|]; [|reflexivity].
  destruct (is_ClientError ex); reflexivity.
Qed.

(** One turn of the loop of [stop_rds_dbs]. *)
Lemma stop_rds_dbs_cons (db : record) (rest : list record) (d : bool) (t : trace) :
  stop_rds_dbs aws str (db :: rest) d t =
  let t1 := t ++ [Print ("Stopping DB: " +++ DateTimeEncoder_text (PDict db))] in
  if d then stop_rds_dbs aws str rest d t1
  else
    match getitem db "DBInstanceStatus" with
    | Raise ex => (Raise ex, t1)
    | Ret status =>
        match getitem db "DBInstanceIdentifier" with
        | Raise ex => (Raise ex, t1)
        | Ret ident =>
            if eq_str status "stopped" then
              stop_rds_dbs aws str rest d
                (t1 ++ [Print ("DB Instance " +++ str ident +++ " is stopped")])
            else
              match stop_db_instance aws t1 ident with
              | None => stop_rds_dbs aws str rest d (t1 ++ [StopDBInstance ident])
              | Some ex => (Raise ex, t1 ++ [StopDBInstance ident])
              end
        end
    end.
Proof.
  unfold stop_rds_dbs. cbn [for_each].
  unfold bind, lift, print, call_stop_db_instance.
  rewrite json_dumps_DateTimeEncoder.
  destruct d; [reflexivity|].
  destruct (getitem db "DBInstanceStatus") as [status|ex].
  2: { destruct (getitem db "DBInstanceIdentifier"); reflexivity. }
  destruct (getitem db "DBInstanceIdentifier") as [ident|ex];
    destruct (eq_str status "stopped"); try reflexivity.
  destruct (stop_db_instance aws _ ident); reflexivity.
Qed.

End Steps.

(** ** The loop over the virtual machines *)

(** The stop requests of a run are those of a prefix of the list, one for
    each instance and in order, all with [Hibernate=False] and the caller's
    flag; the run covers the whole list when it returns, and it is ended only
    by a stop call that raises something else than a [ClientError]. *)
Lemma turnoff_ec2_vms_requests (aws : provider) (l : list Instance) (d : bool) (t : trace) :
  exists (k : nat) (evs : trace),
    snd (turnoff_ec2_vms aws l d t) = t ++ evs /\
    k <= List.length l /\
    stop_requests evs = map (fun i => (i, false, d)) (firstn k l) /\
    match fst (turnoff_ec2_vms aws l d t) with
    | Ret _ => k = List.length l
    | Raise ex =>
        is_ClientError ex = false /\
        exists i t', nth_error l (k - 1) = Some i /\ 0 < k /\
                     instance_stop aws t' i false d = Some ex
    end.
Proof.
  revert t. induction l as [|i rest IH]; intro t.
  - exists 0, []. simpl. rewrite app_nil_r. repeat split; reflexivity.
  - rewrite turnoff_ec2_vms_cons. cbv zeta.
    set (t1 := t ++ [Print ("Stopping VM: " +++ id i)]).
    destruct (instance_stop aws t1 i false d) as [ex|] eqn:E.
    + destruct (is_ClientError ex) eqn:C.
      * destruct (IH ((t1 ++ [InstanceStop i false d])
                        ++ [Print ("Exception: " +++ str_exn ex)]))
          as (k & evs & Ht & Hk & Hr & Ho).
        exists (S k),
          ([Print ("Stopping VM: " +++ id i); InstanceStop i false d;
            Print ("Exception: " +++ str_exn ex)] ++ evs).
        split; [|split; [|split]].
        -- rewrite Ht. unfold t1. rewrite <- !app_assoc. reflexivity.
        -- simpl. lia.
        -- simpl. rewrite Hr. reflexivity.
        -- destruct (fst (turnoff_ec2_vms aws rest d _)) as [u|ex'].
           ++ simpl. lia.
           ++ destruct Ho as (Hc & j & t' & Hn & Hpos & Hs).
              split; [exact Hc|]. exists j, t'.
              split; [|split; [lia | exact Hs]].
              destruct k as [|k]; [lia|].
              simpl in *. rewrite Nat.sub_0_r in Hn. exact Hn.
      * exists 1, [Print ("Stopping VM: " +++ id i); InstanceStop i false d].
        simpl. split; [|split; [lia|split; [reflexivity|]]].
        -- unfold t1. rewrite <- app_assoc. reflexivity.
        -- split; [exact C|]. exists i, t1. repeat split; [lia | exact E].
    + destruct (IH (t1 ++ [InstanceStop i false d]))
        as (k & evs & Ht & Hk & Hr & Ho).
      exists (S k), ([Print ("Stopping VM: " +++ id i); InstanceStop i false d] ++ evs).
      split; [|split; [|split]].
      * rewrite Ht. unfold t1. rewrite <- !app_assoc. reflexivity.
      * simpl. lia.
      * simpl. rewrite Hr. reflexivity.
      * destruct (fst (turnoff_ec2_vms aws rest d _)) as [u|ex'].
        -- simpl. lia.
        -- destruct Ho as (Hc & j & t' & Hn & Hpos & Hs).
           split; [exact Hc|]. exists j, t'.
           split; [|split; [lia | exact Hs]].
           destruct k as [|k]; [lia|].
           simpl in *. rewrite Nat.sub_0_r in Hn. exact Hn.
Qed.

(** When the provider raises nothing but [ClientError] on a stop call, the
    loop returns. *)
Lemma turnoff_ec2_vms_returns (aws : provider) (l : list Instance) (d : bool) (t : trace) :
  (forall t' i ex, instance_stop aws t' i false d = Some ex -> is_ClientError ex = true) ->
  fst (turnoff_ec2_vms aws l d t) = Ret tt.
Proof.
  intro H.
  destruct (turnoff_ec2_vms_requests aws l d t) as (k & evs & _ & _ & _ & Ho).
  destruct (fst (turnoff_ec2_vms aws l d t)) as [[]|ex]; [reflexivity|].
  destruct Ho as (Hc & i & t' & _ & _ & Hs).
  rewrite (H _ _ _ Hs) in Hc. discriminate Hc.
Qed.

(** ** The loop over the databases and the handler *)

Lemma for_each_app {A} (l1 l2 : list A) (body : A -> M unit) (t : trace) :
  for_each (l1 ++ l2) body t =
  match for_each l1 body t with
  | (Ret _, t') => for_each l2 body t'
  | (Raise ex, t') => (Raise ex, t')
  end.
Proof.
  revert t. induction l1 as [|x l1 IH]; intro t; simpl List.app; cbn [for_each].
  - reflexivity.
  - unfold bind. destruct (body x t) as [[u|ex] t']; [apply IH | reflexivity].
Qed.

Lemma stop_rds_dbs_dry_run (aws : provider) (str : pyval -> string)
    (l : list record) (t : trace) :
  stop_rds_dbs aws str l true t = (Ret tt, t ++ map stopping_db l).
Proof.
  revert t. induction l as [|db rest IH]; intro t.
  - simpl. rewrite app_nil_r. reflexivity.
  - rewrite stop_rds_dbs_cons. cbv zeta. rewrite IH.
    rewrite <- app_assoc. reflexivity.
Qed.

(** The database loop makes no call on an instance. *)
Lemma stop_rds_dbs_trace (aws : provider) (str : pyval -> string)
    (l : list record) (d : bool) (t : trace) :
  exists evs, snd (stop_rds_dbs aws str l d t) = t ++ evs /\ stop_requests evs = [].
Proof.
  revert t. induction l as [|db rest IH]; intro t.
  - exists []. simpl. rewrite app_nil_r. split; reflexivity.
  - rewrite stop_rds_dbs_cons. cbv zeta.
    set (t1 := t ++ [stopping_db db]).
    change (t ++ [Print ("Stopping DB: " +++ DateTimeEncoder_text (PDict db))]) with t1.
    assert (Ht1 : forall evs, stop_requests evs = [] ->
              exists evs', (t1 ++ evs) = t ++ evs' /\ stop_requests evs' = []).
    { intros evs H. exists (stopping_db db :: evs). unfold t1.
      rewrite <- app_assoc. split; [reflexivity | exact H]. }
    assert (Hrec : forall evs, stop_requests evs = [] ->
              exists evs', snd (stop_rds_dbs aws str rest d (t1 ++ evs)) = t ++ evs'
                           /\ stop_requests evs' = []).
    { intros evs H. destruct (IH (t1 ++ evs)) as (evs2 & E2 & H2).
      destruct (Ht1 (evs ++ evs2)) as (evs' & E' & H').
      - rewrite stop_requests_app, H, H2. reflexivity.
      - exists evs'. rewrite E2, <- app_assoc. split; assumption. }
    assert (Hnil : exists evs', snd (stop_rds_dbs aws str rest d t1) = t ++ evs'
                               /\ stop_requests evs' = []).
    { destruct (Hrec [] eq_refl) as (evs' & E' & H'). rewrite app_nil_r in E'.
      exists evs'. split; assumption. }
    destruct d; [exact Hnil|].
    destruct (getitem db "DBInstanceStatus") as [status|ex].
    2: { simpl. rewrite <- (app_nil_r t1). apply Ht1. reflexivity. }
    destruct (getitem db "DBInstanceIdentifier") as [ident|ex].
    2: { simpl. rewrite <- (app_nil_r t1). apply Ht1. reflexivity. }
    destruct (eq_str status "stopped").
    + apply Hrec. reflexivity.
    + destruct (stop_db_instance aws t1 ident).
      * simpl. apply Ht1. reflexivity.
      * apply Hrec. reflexivity.
Qed.

Lemma get_ec2_vm_list_trace (aws : provider) (t : trace) :
  snd (get_ec2_vm_list aws t) = t ++ [InstancesFilter running_filter 20].
Proof.
  unfold get_ec2_vm_list.
  destruct (instances_filter aws t _ 20) as [pages [ex|]]; reflexivity.
Qed.

Lemma get_rds_db_list_trace (aws : provider) (t : trace) :
  snd (get_rds_db_list aws t) = t ++ [Paginate_describe_db_instances].
Proof.
  unfold get_rds_db_list.
  destruct (describe_db_instances aws t) as [pages [ex|]]; reflexivity.
Qed.

(** The handler is its listing steps followed by [stop_rds_dbs] without
    dry run. *)
Lemma lambda_handler_split (aws : provider) (str : pyval -> string)
    (event context : pyval) (t : trace) :
  lambda_handler aws str event context t =
  match lambda_handler_listing aws t with
  | (Ret db_list, t') => stop_rds_dbs aws str db_list false t'
  | (Raise ex, t') => (Raise ex, t')
  end.
Proof.
  unfold lambda_handler, lambda_handler_listing, bind, print.
  destruct (get_ec2_vm_list aws _) as [[vm_list|ex] t1]; [|reflexivity].
  destruct (turnoff_ec2_vms aws vm_list false _) as [[u|ex] t2]; [|reflexivity].
  destruct (get_rds_db_list aws t2) as [[db_list|ex] t3]; reflexivity.
Qed.

(** The base encoder raises nothing but [TypeError]. *)
Lemma iterencode_JSONEncoder_raises (n : nat) (o : pyval) (ex : exn) :
  iterencode JSONEncoder_default (S n) o = Raise ex -> exists msg, ex = TypeError msg.
Proof.
  revert ex.
  induction o as [ | b | z | s | l IHl | items IHl | d | d | tn ]
    using pyval_nested_ind; intro ex.
  - discriminate.
  - destruct b; discriminate.
  - discriminate.
  - discriminate.
  - simpl.
    match goal with
    | |- obind (?F l) _ = _ -> _ =>
        assert (E : forall ex', F l = Raise ex' -> exists msg, ex' = TypeError msg)
    end.
    { induction IHl as [|x l Hx _ IH]; intros ex' H; [discriminate H|].
      simpl in H.
      destruct (encode_with _ x) as [s|e] eqn:Ex; [|injection H as <-; eauto].
      simpl in H.
      match type of H with
      | obind ?G _ = _ => destruct G as [ss|e] eqn:Es
      end; [discriminate H | injection H as <-; eauto]. }
    match goal with
    | |- obind ?G _ = _ -> _ => destruct G as [ss|e]
    end; [discriminate | intros [= <-]; eauto].
  - simpl.
    match goal with
    | |- obind (?F items) _ = _ -> _ =>
        assert (E : forall ex', F items = Raise ex' -> exists msg, ex' = TypeError msg)
    end.
    { induction IHl as [|[k v] l Hx _ IH]; intros ex' H; [discriminate H|].
      simpl in H.
      destruct (encode_with _ v) as [s|e] eqn:Ex; [|injection H as <-; eauto].
      simpl in H.
      match type of H with
      | obind ?G _ = _ => destruct G as [ss|e] eqn:Es
      end; [discriminate H | injection H as <-; eauto]. }
    match goal with
    | |- obind ?G _ = _ -> _ => destruct G as [ss|e]
    end; [discriminate | intros [= <-]; eauto].
  - intros [= <-]. eauto.
  - intros [= <-]. eauto.
  - intros [= <-]. eauto.
Qed.

(** The base encoder fails on a dict one of whose values is an object it does
    not know. *)
Lemma json_dumps_JSONEncoder_object (r : record) (k tn : string) :
  In (k, PObject tn) r ->
  exists msg, json_dumps JSONEncoder_default (PDict r) = Raise (TypeError msg).
Proof.
  intro Hin. unfold json_dumps, recursion_limit. simpl.
  match goal with
  | |- exists msg, obind (?F r) _ = _ =>
      assert (E : exists msg, F r = Raise (TypeError msg))
  end.
  { induction r as [|[k' v'] r IH]; [destruct Hin|].
    simpl.
    destruct (encode_with _ v') as [s|e] eqn:Ex.
    - destruct Hin as [[= -> ->]|Hin]; [discriminate Ex|].
      destruct (IH Hin) as (msg & ->). simpl. eauto.
    - destruct (iterencode_JSONEncoder_raises 999 v' e Ex) as (msg & ->).
      simpl. eauto. }
  destruct E as (msg & ->). simpl. eauto.
Qed.

Lemma eq_str_spec (v : pyval) (s : string) : eq_str v s = true <-> v = PStr s.
Proof.
  destruct v; simpl; try (split; [discriminate | intros [=]]).
  rewrite String.eqb_eq. split; [intros -> | intros [= ->]]; reflexivity.
Qed.

(** When the loop has gone through [l1] and returned, it goes on with what
    follows [l1] from the trace it has reached. *)
Lemma turnoff_ec2_vms_reaches (aws : provider) (l1 rest : list Instance) (d : bool)
    (t0 t : trace) :
  turnoff_ec2_vms aws l1 d t0 = (Ret tt, t) ->
  turnoff_ec2_vms aws (l1 ++ rest) d t0 = turnoff_ec2_vms aws rest d t.
Proof.
  intro H. unfold turnoff_ec2_vms. rewrite for_each_app.
  fold (turnoff_ec2_vms aws l1 d t0). rewrite H. reflexivity.
Qed.

(** A stop call that raises something else than a [ClientError] is not
    caught: the exception comes out of the loop, whose trace ends with that
    call. *)
Lemma turnoff_ec2_vms_uncaught (aws : provider) (l1 : list Instance) (i : Instance)
    (rest : list Instance) (d : bool) (t0 t : trace) (ex : exn) :
  turnoff_ec2_vms aws l1 d t0 = (Ret tt, t) ->
  instance_stop aws (t ++ [Print ("Stopping VM: " +++ id i)]) i false d = Some ex ->
  is_ClientError ex = false ->
  turnoff_ec2_vms aws (l1 ++ i :: rest) d t0
  = (Raise ex, t ++ [Print ("Stopping VM: " +++ id i); InstanceStop i false d]).
Proof.
  intros H1 Hs Hc.
  rewrite (turnoff_ec2_vms_reaches aws l1 (i :: rest) d t0 t H1).
  rewrite turnoff_ec2_vms_cons. cbv zeta. rewrite Hs, Hc, <- app_assoc. reflexivity.
Qed.

(** A stop call that raises a [ClientError] is caught and logged, and the
    loop goes on. *)
Lemma turnoff_ec2_vms_caught (aws : provider) (l1 : list Instance) (i : Instance)
    (rest : list Instance) (d : bool) (t0 t : trace) (ex : exn) :
  turnoff_ec2_vms aws l1 d t0 = (Ret tt, t) ->
  instance_stop aws (t ++ [Print ("Stopping VM: " +++ id i)]) i false d = Some ex ->
  is_ClientError ex = true ->
  turnoff_ec2_vms aws (l1 ++ i :: rest) d t0
  = turnoff_ec2_vms aws rest d
      (t ++ [Print ("Stopping VM: " +++ id i); InstanceStop i false d;
             Print ("Exception: " +++ str_exn ex)]).
Proof.
  intros H1 Hs Hc.
  rewrite (turnoff_ec2_vms_reaches aws l1 (i :: rest) d t0 t H1).
  rewrite turnoff_ec2_vms_cons. cbv zeta. rewrite Hs, Hc, <- !app_assoc. reflexivity.
Qed.

(** The stop requests of a loop that returned: one for each instance. *)
Lemma turnoff_ec2_vms_returned (aws : provider) (l : list Instance) (d : bool)
    (t0 t : trace) :
  turnoff_ec2_vms aws l d t0 = (Ret tt, t) ->
  exists evs, t = t0 ++ evs /\ stop_requests evs = map (fun i => (i, false, d)) l.
Proof.
  intro H.
  destruct (turnoff_ec2_vms_requests aws l d t0) as (k & evs & Ht & _ & Hr & Ho).
  rewrite H in Ht, Ho. simpl in Ht, Ho. subst k. rewrite firstn_all in Hr.
  exists evs. split; assumption.
Qed.

(** * The claims *)

(** ** C1 *)

(** C1, as amended.  In a call of [turnoff_ec2_vms] the stop requests made
    are, in list order, exactly one for each instance of a prefix of the
    list.  The prefix is the whole list whenever the call returns, and with a
    provider that raises nothing but client errors the call returns and every
    instance of the list gets its one request.  The call fails to return
    only when a stop call raised an exception that is not a provider client
    error.  Such an exception is not caught: when the loop reaches an
    instance whose stop call raises it, the exception comes out of
    [turnoff_ec2_vms] and the trace ends with that call, so that exactly the
    instances up to that one have had a stop request and those after it have
    none. *)
Theorem turnoff_ec2_vms_attempts_in_order
    (aws : provider) (l : list Instance) (d : bool) (t : trace) :
  (exists (k : nat) (evs : trace),
    snd (turnoff_ec2_vms aws l d t) = t ++ evs /\
    stop_requests evs = map (fun i => (i, false, d)) (firstn k l) /\
    match fst (turnoff_ec2_vms aws l d t) with
    | Ret _ => k = List.length l
    | Raise ex =>
        is_ClientError ex = false /\
        exists i t', nth_error l (k - 1) = Some i /\ 0 < k <= List.length l /\
                     instance_stop aws t' i false d = Some ex
    end /\
    ((forall t' i ex, instance_stop aws t' i false d = Some ex ->
                      is_ClientError ex = true) ->
     fst (turnoff_ec2_vms aws l d t) = Ret tt /\
     stop_requests evs = map (fun i => (i, false, d)) l))
  /\
  (forall (l1 : list Instance) (i : Instance) (rest : list Instance)
          (t1 : trace) (ex : exn),
      l = l1 ++ i :: rest ->
      turnoff_ec2_vms aws l1 d t = (Ret tt, t1) ->
      instance_stop aws (t1 ++ [Print ("Stopping VM: " +++ id i)]) i false d = Some ex ->
      is_ClientError ex = false ->
      turnoff_ec2_vms aws l d t
      = (Raise ex, t1 ++ [Print ("Stopping VM: " +++ id i); InstanceStop i false d]) /\
      exists evs,
        snd (turnoff_ec2_vms aws l d t) = t ++ evs /\
        stop_requests evs = map (fun j => (j, false, d)) (l1 ++ [i])).
Proof.
  split.
  - destruct (turnoff_ec2_vms_requests aws l d t) as (k & evs & Ht & Hk & Hr & Ho).
    exists k, evs. split; [exact Ht|]. split; [exact Hr|]. split.
    + destruct (fst (turnoff_ec2_vms aws l d t)) as [u|ex]; [exact Ho|].
      destruct Ho as (Hc & i & t' & Hn & Hpos & Hs).
      split; [exact Hc|]. exists i, t'. repeat split; assumption.
    + intro H. pose proof (turnoff_ec2_vms_returns aws l d t H) as R.
      split; [exact R|]. rewrite R in Ho. subst k.
      rewrite firstn_all in Hr. exact Hr.
  - intros l1 i rest t1 ex -> H1 Hs Hc.
    pose proof (turnoff_ec2_vms_uncaught aws l1 i rest d t t1 ex H1 Hs Hc) as E.
    split; [exact E|].
    destruct (turnoff_ec2_vms_returned aws l1 d t t1 H1) as (evs1 & -> & Hr).
    exists (evs1 ++ [Print ("Stopping VM: " +++ id i); InstanceStop i false d]).
    rewrite E. simpl snd. split; [rewrite <- app_assoc; reflexivity|].
    rewrite stop_requests_app, Hr, map_app. reflexivity.
Qed.

Lemma turnoff_ec2_vms_attempts_in_order_witness :
  turnoff_ec2_vms offline [vm1; vm2] false []
  = (Raise (BotoCoreError "Could not connect to the endpoint URL"),
     [] ++ [Print ("Stopping VM: " +++ id vm1); InstanceStop vm1 false false]) /\
  exists evs,
    snd (turnoff_ec2_vms offline [vm1; vm2] false []) = [] ++ evs /\
    stop_requests evs = map (fun j => (j, false, false)) ([] ++ [vm1]).
Proof.
  exact (proj2 (turnoff_ec2_vms_attempts_in_order offline [vm1; vm2] false [])
           [] vm1 [vm2] [] (BotoCoreError "Could not connect to the endpoint URL")
           eq_refl eq_refl eq_refl eq_refl).
Defined.

(** C1, as stated, fails when the network is down: the stop of [vm1] raises
    an exception that is not a client error, the loop ends there, and [vm2],
    which is in the list, gets no stop request. *)
Lemma turnoff_ec2_vms_offline_counterexample :
  In vm2 [vm1; vm2] /\
  stop_requests (snd (turnoff_ec2_vms offline [vm1; vm2] false [])) = [(vm1, false, false)] /\
  fst (turnoff_ec2_vms offline [vm1; vm2] false [])
  = Raise (BotoCoreError "Could not connect to the endpoint URL").
Proof.
  split; [right; left; reflexivity|]. split; reflexivity.
Qed.

(** ** C2 *)

(** C2, as amended.  With the dry-run flag set, every stop request made on
    an instance carries [DryRun=True] (and [Hibernate=False]), exactly one
    request for each instance the loop reaches, in list order: for every
    instance of the list when the call returns, which it does when the
    provider raises nothing but client errors.  A stop call that raises an
    exception of another class ends the loop with that exception, and the
    instances after it get no call.  [stop_rds_dbs] with the flag set returns
    having only logged each record: it makes no stop request on a
    database. *)
Theorem dry_run_passed_on_and_honoured (aws : provider) (str : pyval -> string) :
  (forall (l : list Instance) (t : trace),
      exists (k : nat) (evs : trace),
        snd (turnoff_ec2_vms aws l true t) = t ++ evs /\
        stop_requests evs = map (fun i => (i, false, true)) (firstn k l) /\
        match fst (turnoff_ec2_vms aws l true t) with
        | Ret _ => k = List.length l
        | Raise ex =>
            is_ClientError ex = false /\
            exists i t', nth_error l (k - 1) = Some i /\ 0 < k <= List.length l /\
                         instance_stop aws t' i false true = Some ex
        end /\
        ((forall t' i ex, instance_stop aws t' i false true = Some ex ->
                          is_ClientError ex = true) ->
         fst (turnoff_ec2_vms aws l true t) = Ret tt /\
         stop_requests evs = map (fun i => (i, false, true)) l)) /\
  (forall (l1 : list Instance) (i : Instance) (rest : list Instance)
          (t0 t : trace) (ex : exn),
      turnoff_ec2_vms aws l1 true t0 = (Ret tt, t) ->
      instance_stop aws (t ++ [Print ("Stopping VM: " +++ id i)]) i false true = Some ex ->
      is_ClientError ex = false ->
      turnoff_ec2_vms aws (l1 ++ i :: rest) true t0
      = (Raise ex, t ++ [Print ("Stopping VM: " +++ id i); InstanceStop i false true])) /\
  (forall (l : list record) (t : trace),
      stop_rds_dbs aws str l true t = (Ret tt, t ++ map stopping_db l) /\
      db_stop_requests (map stopping_db l) = []).
Proof.
  split; [|split].
  - intros l t.
    destruct (turnoff_ec2_vms_requests aws l true t) as (k & evs & Ht & Hk & Hr & Ho).
    exists k, evs. split; [exact Ht|]. split; [exact Hr|]. split.
    + destruct (fst (turnoff_ec2_vms aws l true t)) as [u|ex]; [exact Ho|].
      destruct Ho as (Hc & i & t' & Hn & Hpos & Hs).
      split; [exact Hc|]. exists i, t'. repeat split; assumption.
    + intro H. pose proof (turnoff_ec2_vms_returns aws l true t H) as R.
      split; [exact R|]. rewrite R in Ho. subst k.
      rewrite firstn_all in Hr. exact Hr.
  - intros l1 i rest t0 t ex. apply turnoff_ec2_vms_uncaught.
  - intros l t. split; [apply stop_rds_dbs_dry_run|].
    induction l as [|db l IH]; [reflexivity | exact IH].
Qed.

Lemma dry_run_passed_on_and_honoured_witness :
  turnoff_ec2_vms flaky ([vm3] ++ vm2 :: [vm3]) true []
  = (Raise (BotoCoreError "Could not connect to the endpoint URL"),
     [Print "Stopping VM: i-0c3"; InstanceStop vm3 false true]
     ++ [Print ("Stopping VM: " +++ id vm2); InstanceStop vm2 false true]).
Proof.
  exact (proj1 (proj2 (dry_run_passed_on_and_honoured flaky sample_str))
           [vm3] vm2 [vm3] []
           [Print "Stopping VM: i-0c3"; InstanceStop vm3 false true]
           (BotoCoreError "Could not connect to the endpoint URL")
           eq_refl eq_refl eq_refl).
Defined.

(** C2, as stated, fails with the flag set when the network is down: the
    stop of [vm1] is called with [DryRun=True] and raises an exception that
    is not a client error; the loop ends there and [vm2], which is in the
    list, gets no stop call at all. *)
Lemma dry_run_offline_counterexample :
  In vm2 [vm1; vm2] /\
  stop_requests (snd (turnoff_ec2_vms offline [vm1; vm2] true [])) = [(vm1, false, true)] /\
  fst (turnoff_ec2_vms offline [vm1; vm2] true [])
  = Raise (BotoCoreError "Could not connect to the endpoint URL").
Proof.
  split; [right; left; reflexivity|]. split; reflexivity.
Qed.

(** With the flag set and a provider whose stop calls return: every instance
    gets its call with [DryRun=True], and no database gets one. *)
Example dry_run_healthy :
  turnoff_ec2_vms healthy [vm1; vm2] true []
  = (Ret tt, [Print "Stopping VM: i-0a1"; InstanceStop vm1 false true;
              Print "Stopping VM: i-0b2"; InstanceStop vm2 false true])
  /\ stop_rds_dbs healthy sample_str [db_orders; db_archive] true []
     = (Ret tt, [stopping_db db_orders; stopping_db db_archive]).
Proof. split; reflexivity. Qed.

(** ** C3 *)

(** C3.  Without dry run, when the loop of [stop_rds_dbs] reaches a record
    that has both fields, it logs the record; then, if the status is exactly
    the string [stopped], it logs the notice and goes on with the next record
    without a stop request; for any other status it makes one stop request,
    with the record's identifier, and goes on when the request returns. *)
Theorem stop_rds_dbs_by_status
    (aws : provider) (str : pyval -> string)
    (l1 : list record) (db : record) (rest : list record) (t0 t : trace)
    (status ident : pyval) :
  stop_rds_dbs aws str l1 false t0 = (Ret tt, t) ->
  getitem db "DBInstanceStatus" = Ret status ->
  getitem db "DBInstanceIdentifier" = Ret ident ->
  (status = PStr "stopped" ->
   stop_rds_dbs aws str (l1 ++ db :: rest) false t0 =
     stop_rds_dbs aws str rest false
       (t ++ [stopping_db db; Print ("DB Instance " +++ str ident +++ " is stopped")]))
  /\
  (status <> PStr "stopped" ->
   stop_rds_dbs aws str (l1 ++ db :: rest) false t0 =
     match stop_db_instance aws (t ++ [stopping_db db]) ident with
     | None => stop_rds_dbs aws str rest false (t ++ [stopping_db db; StopDBInstance ident])
     | Some ex => (Raise ex, t ++ [stopping_db db; StopDBInstance ident])
     end).
Proof.
  intros H1 Hs Hi.
  assert (E : stop_rds_dbs aws str (l1 ++ db :: rest) false t0
              = stop_rds_dbs aws str (db :: rest) false t).
  { unfold stop_rds_dbs. rewrite for_each_app.
    fold (stop_rds_dbs aws str l1 false t0). rewrite H1. reflexivity. }
  rewrite E, stop_rds_dbs_cons. cbv zeta. rewrite Hs, Hi. fold (stopping_db db).
  split; intro H.
  - rewrite (proj2 (eq_str_spec status "stopped") H), <- app_assoc. reflexivity.
  - destruct (eq_str status "stopped") eqn:Q.
    + apply eq_str_spec in Q. contradiction.
    + rewrite <- app_assoc. reflexivity.
Qed.

Lemma stop_rds_dbs_by_status_witness :
  (PStr "stopped" = PStr "stopped" ->
   stop_rds_dbs healthy sample_str ([db_orders] ++ db_archive :: [db_orders]) false [] =
     stop_rds_dbs healthy sample_str [db_orders] false
       ([stopping_db db_orders; StopDBInstance (PStr "orders")]
        ++ [stopping_db db_archive;
            Print ("DB Instance " +++ sample_str (PStr "archive") +++ " is stopped")]))
  /\
  (PStr "stopped" <> PStr "stopped" ->
   stop_rds_dbs healthy sample_str ([db_orders] ++ db_archive :: [db_orders]) false [] =
     match stop_db_instance healthy
             ([stopping_db db_orders; StopDBInstance (PStr "orders")]
              ++ [stopping_db db_archive]) (PStr "archive") with
     | None => stop_rds_dbs healthy sample_str [db_orders] false
                 ([stopping_db db_orders; StopDBInstance (PStr "orders")]
                  ++ [stopping_db db_archive; StopDBInstance (PStr "archive")])
     | Some ex => (Raise ex,
                   [stopping_db db_orders; StopDBInstance (PStr "orders")]
                   ++ [stopping_db db_archive; StopDBInstance (PStr "archive")])
     end).
Proof.
  exact (stop_rds_dbs_by_status healthy sample_str [db_orders] db_archive [db_orders]
           [] [stopping_db db_orders; StopDBInstance (PStr "orders")]
           (PStr "stopped") (PStr "archive") eq_refl eq_refl eq_refl).
Defined.

(** The two records of the sample account: one stop request, for [orders],
    and a notice for [archive]. *)
Example stop_rds_dbs_healthy :
  stop_rds_dbs healthy sample_str [db_orders; db_archive] false [] =
  (Ret tt, [stopping_db db_orders; StopDBInstance (PStr "orders");
            stopping_db db_archive; Print "DB Instance archive is stopped"]).
Proof. reflexivity. Qed.

(** ** C4 *)

(** C4, as amended.  When the loop of [turnoff_ec2_vms] reaches an instance
    whose stop call raises, what follows depends on the class of the
    exception.  A provider client error is caught and logged, and the loop
    goes on with the instances after it from the trace so extended.  An
    exception of any other class is not caught: it comes out of
    [turnoff_ec2_vms], the trace ends with the call that raised it, and the
    instances after it are not attempted.  So no call of [turnoff_ec2_vms]
    is ended by a provider client error. *)
Theorem turnoff_ec2_vms_ClientError_caught
    (aws : provider) (l1 : list Instance) (i : Instance) (rest : list Instance)
    (d : bool) (t0 t : trace) (ex : exn) :
  turnoff_ec2_vms aws l1 d t0 = (Ret tt, t) ->
  instance_stop aws (t ++ [Print ("Stopping VM: " +++ id i)]) i false d = Some ex ->
  (is_ClientError ex = true ->
   turnoff_ec2_vms aws (l1 ++ i :: rest) d t0 =
     turnoff_ec2_vms aws rest d
       (t ++ [Print ("Stopping VM: " +++ id i); InstanceStop i false d;
              Print ("Exception: " +++ str_exn ex)]))
  /\
  (is_ClientError ex = false ->
   turnoff_ec2_vms aws (l1 ++ i :: rest) d t0 =
     (Raise ex, t ++ [Print ("Stopping VM: " +++ id i); InstanceStop i false d]))
  /\ (forall l t' ex', fst (turnoff_ec2_vms aws l d t') = Raise ex' ->
                       is_ClientError ex' = false).
Proof.
  intros H1 H. split; [|split].
  - apply (turnoff_ec2_vms_caught aws l1 i rest d t0 t ex H1 H).
  - apply (turnoff_ec2_vms_uncaught aws l1 i rest d t0 t ex H1 H).
  - intros l t' ex' R.
    destruct (turnoff_ec2_vms_requests aws l d t') as (k & evs & _ & _ & _ & Ho).
    rewrite R in Ho. apply Ho.
Qed.

Lemma turnoff_ec2_vms_ClientError_caught_witness :
  turnoff_ec2_vms flaky ([vm3] ++ vm1 :: [vm3]) false [] =
    turnoff_ec2_vms flaky [vm3] false
      ([Print "Stopping VM: i-0c3"; InstanceStop vm3 false false]
       ++ [Print ("Stopping VM: " +++ id vm1); InstanceStop vm1 false false;
           Print ("Exception: " +++
                  "An error occurred (IncorrectInstanceState) when calling the StopInstances operation")])
  /\
  turnoff_ec2_vms flaky ([vm3] ++ vm2 :: [vm3]) false [] =
    (Raise (BotoCoreError "Could not connect to the endpoint URL"),
     [Print "Stopping VM: i-0c3"; InstanceStop vm3 false false]
     ++ [Print ("Stopping VM: " +++ id vm2); InstanceStop vm2 false false]).
Proof.
  split.
  - exact (proj1
             (turnoff_ec2_vms_ClientError_caught flaky [vm3] vm1 [vm3] false []
                [Print "Stopping VM: i-0c3"; InstanceStop vm3 false false]
                (ClientError "An error occurred (IncorrectInstanceState) when calling the StopInstances operation")
                eq_refl eq_refl) eq_refl).
  - exact (proj1 (proj2
             (turnoff_ec2_vms_ClientError_caught flaky [vm3] vm2 [vm3] false []
                [Print "Stopping VM: i-0c3"; InstanceStop vm3 false false]
                (BotoCoreError "Could not connect to the endpoint URL")
                eq_refl eq_refl)) eq_refl).
Defined.

(** On [flaky], with [vm1] between two instances whose stop succeeds: the
    error is logged and the instance after [vm1] gets its stop request. *)
Example turnoff_ec2_vms_flaky_goes_on :
  turnoff_ec2_vms flaky [vm3; vm1; vm3] false [] =
  (Ret tt,
   [Print "Stopping VM: i-0c3"; InstanceStop vm3 false false;
    Print "Stopping VM: i-0a1"; InstanceStop vm1 false false;
    Print "Exception: An error occurred (IncorrectInstanceState) when calling the StopInstances operation";
    Print "Stopping VM: i-0c3"; InstanceStop vm3 false false]).
Proof. reflexivity. Qed.

(** C4, as stated, fails on [flaky]: the stop of [vm1] raises a client error,
    which is caught, but the stop of [vm2] then raises an exception of
    another class; the loop is ended by it and [vm3], which comes after
    [vm1] in the list, gets no stop request. *)
Lemma turnoff_ec2_vms_flaky_counterexample :
  instance_stop flaky [Print "Stopping VM: i-0a1"] vm1 false false
  = Some (ClientError "An error occurred (IncorrectInstanceState) when calling the StopInstances operation") /\
  stop_requests (snd (turnoff_ec2_vms flaky [vm1; vm2; vm3] false []))
  = [(vm1, false, false); (vm2, false, false)] /\
  fst (turnoff_ec2_vms flaky [vm1; vm2; vm3] false [])
  = Raise (BotoCoreError "Could not connect to the endpoint URL").
Proof. repeat split. Qed.

(** ** C5 *)

(** C5.  When the loop of [stop_rds_dbs] has reached a record that is not
    stopped and the stop call on it raises, the exception comes out of
    [stop_rds_dbs] and the trace ends with that call: the records after it
    are neither logged nor stopped.  It comes out of [lambda_handler] as
    well, whose last step [stop_rds_dbs] is. *)
Theorem stop_rds_dbs_failure_aborts
    (aws : provider) (str : pyval -> string)
    (l1 : list record) (db : record) (l2 : list record) (t t1 : trace)
    (status ident : pyval) (ex : exn) :
  stop_rds_dbs aws str l1 false t = (Ret tt, t1) ->
  getitem db "DBInstanceStatus" = Ret status ->
  eq_str status "stopped" = false ->
  getitem db "DBInstanceIdentifier" = Ret ident ->
  stop_db_instance aws (t1 ++ [stopping_db db]) ident = Some ex ->
  stop_rds_dbs aws str (l1 ++ db :: l2) false t
    = (Raise ex, t1 ++ [stopping_db db; StopDBInstance ident]) /\
  forall (event context : pyval) (t0 : trace),
    lambda_handler_listing aws t0 = (Ret (l1 ++ db :: l2), t) ->
    lambda_handler aws str event context t0
      = (Raise ex, t1 ++ [stopping_db db; StopDBInstance ident]).
Proof.
  intros H1 Hs Hn Hi Hx.
  assert (E : stop_rds_dbs aws str (l1 ++ db :: l2) false t
              = (Raise ex, t1 ++ [stopping_db db; StopDBInstance ident])).
  { unfold stop_rds_dbs. rewrite for_each_app.
    fold (stop_rds_dbs aws str l1 false t). rewrite H1.
    fold (stop_rds_dbs aws str (db :: l2) false t1).
    rewrite stop_rds_dbs_cons. cbv zeta. rewrite Hs, Hi, Hn.
    fold (stopping_db db). rewrite Hx, <- app_assoc. reflexivity. }
  split; [exact E|].
  intros event context t0 L. rewrite lambda_handler_split, L. exact E.
Qed.

Lemma stop_rds_dbs_failure_aborts_witness :
  lambda_handler db_refused sample_str PNone PNone []
  = (Raise (ClientError "An error occurred (InvalidDBInstanceState) when calling the StopDBInstance operation"),
     [Print "getting vm list"; InstancesFilter running_filter 20; Print "got ec2 list";
      Paginate_describe_db_instances;
      stopping_db db_archive; Print "DB Instance archive is stopped"]
     ++ [stopping_db db_orders; StopDBInstance (PStr "orders")]).
Proof.
  exact (proj2
           (stop_rds_dbs_failure_aborts db_refused sample_str
              [db_archive] db_orders [db_archive]
              [Print "getting vm list"; InstancesFilter running_filter 20;
               Print "got ec2 list"; Paginate_describe_db_instances]
              [Print "getting vm list"; InstancesFilter running_filter 20;
               Print "got ec2 list"; Paginate_describe_db_instances;
               stopping_db db_archive; Print "DB Instance archive is stopped"]
              (PStr "available") (PStr "orders")
              (ClientError "An error occurred (InvalidDBInstanceState) when calling the StopDBInstance operation")
              eq_refl eq_refl eq_refl eq_refl eq_refl)
           PNone PNone [] eq_refl).
Defined.

(** ** C6 *)

(** C6.  For a listing answered in pages, [get_rds_db_list] returns the
    records of all the pages, page after page and in the order of each page;
    so every record of every page is in the result. *)
Theorem get_rds_db_list_drains_pages (aws : provider) (t : trace) (pages : list Page) :
  describe_db_instances aws t = (pages, None) ->
  get_rds_db_list aws t
    = (Ret (List.concat (map DBInstances pages)), t ++ [Paginate_describe_db_instances]) /\
  forall page db, In page pages -> In db (DBInstances page) ->
                  In db (List.concat (map DBInstances pages)).
Proof.
  intro H. split.
  - unfold get_rds_db_list. rewrite H, drain_pages. reflexivity.
  - intros page db Hp Hd. apply in_concat. exists (DBInstances page).
    split; [apply in_map; exact Hp | exact Hd].
Qed.

Lemma get_rds_db_list_drains_pages_witness :
  get_rds_db_list healthy []
    = (Ret (List.concat (map DBInstances
              [ {| DBInstances := [db_orders] |}; {| DBInstances := [db_archive] |} ])),
       [] ++ [Paginate_describe_db_instances]) /\
  forall page db,
    In page [ {| DBInstances := [db_orders] |}; {| DBInstances := [db_archive] |} ] ->
    In db (DBInstances page) ->
    In db (List.concat (map DBInstances
             [ {| DBInstances := [db_orders] |}; {| DBInstances := [db_archive] |} ])).
Proof.
  exact (get_rds_db_list_drains_pages healthy []
           [ {| DBInstances := [db_orders] |}; {| DBInstances := [db_archive] |} ] eq_refl).
Defined.

(** ** C7 *)

(** C7.  Serializing a record with [DateTimeEncoder] returns, whatever the
    record holds; and a field whose value is a date or a datetime appears in
    the text as its key followed by the value's [isoformat()] between double
    quotes, unchanged. *)
Theorem DateTimeEncoder_serializes_temporal (r : record) (k : string) (v : pyval) :
  In (k, v) r -> is_temporal v = true ->
  exists pre suf,
    json_dumps DateTimeEncoder_default (PDict r)
    = Ret (pre +++ encode_basestring_ascii k +++ ": "
               +++ quote +++ isoformat v +++ quote +++ suf).
Proof.
  intros Hin Hv. rewrite json_dumps_DateTimeEncoder.
  destruct (join_map_In ", "
              (fun kv => encode_basestring_ascii (fst kv) +++ ": "
                         +++ DateTimeEncoder_text (snd kv)) (k, v) r Hin)
    as (pre & suf & E).
  exists ("{" +++ pre), (suf +++ "}").
  cbn [DateTimeEncoder_text]. rewrite E. cbn [fst snd].
  assert (T : DateTimeEncoder_text v = quote +++ isoformat v +++ quote).
  { destruct v; try discriminate Hv; cbn [DateTimeEncoder_text isoformat];
      unfold encode_basestring_ascii; rewrite escape_plain;
      try reflexivity; [apply plain_date_isoformat | apply plain_datetime_isoformat]. }
  rewrite T. rewrite !append_assoc. reflexivity.
Qed.

Lemma DateTimeEncoder_serializes_temporal_witness :
  exists pre suf,
    json_dumps DateTimeEncoder_default (PDict db_orders)
    = Ret (pre +++ encode_basestring_ascii "InstanceCreateTime" +++ ": "
               +++ quote +++ isoformat (PDateTime created) +++ quote +++ suf).
Proof.
  exact (DateTimeEncoder_serializes_temporal db_orders "InstanceCreateTime"
           (PDateTime created)
           (or_intror (or_intror (or_introl eq_refl))) eq_refl).
Defined.

(** The text of the sample record. *)
Example json_dumps_db_orders :
  json_dumps DateTimeEncoder_default (PDict db_orders)
  = Ret ("{" +++ quote +++ "DBInstanceIdentifier" +++ quote +++ ": "
             +++ quote +++ "orders" +++ quote +++ ", "
             +++ quote +++ "DBInstanceStatus" +++ quote +++ ": "
             +++ quote +++ "available" +++ quote +++ ", "
             +++ quote +++ "InstanceCreateTime" +++ quote +++ ": "
             +++ quote +++ "2024-03-07T09:05:00+00:00" +++ quote +++ "}").
Proof. reflexivity. Qed.

(** ** C8 *)

(** C8.  [lambda_handler] is the four steps in their order, whatever the
    event and the context: it lists the instances, stops them with the
    dry-run flag false, lists the databases and stops them with the flag
    false; a step is skipped only when an exception came out of a step before
    it, and that exception comes out of the handler.  Every stop request the
    handler makes on an instance carries [Hibernate=False] and
    [DryRun=False]. *)
Theorem lambda_handler_fixed_sequence
    (aws : provider) (str : pyval -> string) (event context : pyval) (t : trace) :
  lambda_handler aws str event context t =
    match get_ec2_vm_list aws (t ++ [Print "getting vm list"]) with
    | (Raise ex, t2) => (Raise ex, t2)
    | (Ret vm_list, t2) =>
        match turnoff_ec2_vms aws vm_list false (t2 ++ [Print "got ec2 list"]) with
        | (Raise ex, t3) => (Raise ex, t3)
        | (Ret _, t3) =>
            match get_rds_db_list aws t3 with
            | (Raise ex, t4) => (Raise ex, t4)
            | (Ret db_list, t4) => stop_rds_dbs aws str db_list false t4
            end
        end
    end
  /\ exists evs,
       snd (lambda_handler aws str event context t) = t ++ evs /\
       Forall (fun r => snd (fst r) = false /\ snd r = false) (stop_requests evs).
Proof.
  assert (E : lambda_handler aws str event context t =
    match get_ec2_vm_list aws (t ++ [Print "getting vm list"]) with
    | (Raise ex, t2) => (Raise ex, t2)
    | (Ret vm_list, t2) =>
        match turnoff_ec2_vms aws vm_list false (t2 ++ [Print "got ec2 list"]) with
        | (Raise ex, t3) => (Raise ex, t3)
        | (Ret _, t3) =>
            match get_rds_db_list aws t3 with
            | (Raise ex, t4) => (Raise ex, t4)
            | (Ret db_list, t4) => stop_rds_dbs aws str db_list false t4
            end
        end
    end).
  { unfold lambda_handler, bind, print.
    destruct (get_ec2_vm_list aws _) as [[vm_list|ex] t2]; [|reflexivity].
    destruct (turnoff_ec2_vms aws vm_list false _) as [[u|ex] t3]; [|reflexivity].
    destruct (get_rds_db_list aws t3) as [[db_list|ex] t4]; reflexivity. }
  split; [exact E|]. rewrite E. clear E.
  set (t1 := t ++ [Print "getting vm list"]).
  pose proof (get_ec2_vm_list_trace aws t1) as H2.
  destruct (get_ec2_vm_list aws t1) as [[vm_list|ex] t2]; simpl in H2; subst t2.
  2: { exists [Print "getting vm list"; InstancesFilter running_filter 20].
       unfold t1. simpl. rewrite <- app_assoc. split; [reflexivity | constructor]. }
  set (t2 := (t1 ++ [InstancesFilter running_filter 20]) ++ [Print "got ec2 list"]).
  destruct (turnoff_ec2_vms_requests aws vm_list false t2)
    as (k & evs1 & H3 & _ & Hr & _).
  assert (F1 : Forall (fun r => snd (fst r) = false /\ snd r = false)
                      (stop_requests evs1)).
  { rewrite Hr. apply Forall_forall. intros r Hin.
    apply in_map_iff in Hin. destruct Hin as (i & <- & _). split; reflexivity. }
  assert (P2 : forall evs, t2 ++ evs =
                 t ++ [Print "getting vm list"; InstancesFilter running_filter 20;
                       Print "got ec2 list"] ++ evs).
  { intro evs. unfold t2, t1. rewrite <- !app_assoc. reflexivity. }
  destruct (turnoff_ec2_vms aws vm_list false t2) as [[u|ex] t3]; simpl in H3; subst t3.
  2: { eexists. split; [simpl; apply P2|]. simpl. exact F1. }
  pose proof (get_rds_db_list_trace aws (t2 ++ evs1)) as H4.
  destruct (get_rds_db_list aws (t2 ++ evs1)) as [[db_list|ex] t4]; simpl in H4; subst t4.
  2: { exists ([Print "getting vm list"; InstancesFilter running_filter 20;
                Print "got ec2 list"] ++ evs1 ++ [Paginate_describe_db_instances]).
       split.
       - simpl snd. rewrite <- app_assoc. apply P2.
       - simpl. rewrite stop_requests_app. simpl. rewrite app_nil_r. exact F1. }
  destruct (stop_rds_dbs_trace aws str db_list false
              ((t2 ++ evs1) ++ [Paginate_describe_db_instances]))
    as (evs2 & H5 & Hn).
  exists ([Print "getting vm list"; InstancesFilter running_filter 20;
           Print "got ec2 list"] ++ evs1 ++ [Paginate_describe_db_instances] ++ evs2).
  split.
  - rewrite H5. rewrite <- !app_assoc. apply P2.
  - simpl. rewrite !stop_requests_app. simpl. rewrite Hn, app_nil_r. exact F1.
Qed.

(** A whole invocation on the sample account. *)
Example lambda_handler_healthy :
  lambda_handler healthy sample_str PNone PNone [] =
  (Ret tt,
   [Print "getting vm list"; InstancesFilter running_filter 20; Print "got ec2 list";
    Print "Stopping VM: i-0a1"; InstanceStop vm1 false false;
    Print "Stopping VM: i-0b2"; InstanceStop vm2 false false;
    Print "Stopping VM: i-0c3"; InstanceStop vm3 false false;
    Paginate_describe_db_instances;
    stopping_db db_orders; StopDBInstance (PStr "orders");
    stopping_db db_archive; Print "DB Instance archive is stopped"]).
Proof. reflexivity. Qed.

(** ** C9 *)

(** C9.  [DateTimeEncoder.default] returns [None] for every object that is
    not a date or a datetime; so a record one of whose fields holds an object
    the [json] module does not know is serialized with [null] for that field,
    where the base encoder raises a [TypeError]. *)
Theorem DateTimeEncoder_default_falls_through (r : record) (k tn : string) :
  In (k, PObject tn) r ->
  (forall obj, is_temporal obj = false -> DateTimeEncoder_default obj = Ret PNone) /\
  (exists pre suf,
      json_dumps DateTimeEncoder_default (PDict r)
      = Ret (pre +++ encode_basestring_ascii k +++ ": null" +++ suf)) /\
  (exists msg, json_dumps JSONEncoder_default (PDict r) = Raise (TypeError msg)).
Proof.
  intro Hin. split; [|split].
  - intros obj H. destruct obj; try discriminate H; reflexivity.
  - rewrite json_dumps_DateTimeEncoder.
    destruct (join_map_In ", "
                (fun kv => encode_basestring_ascii (fst kv) +++ ": "
                           +++ DateTimeEncoder_text (snd kv)) (k, PObject tn) r Hin)
      as (pre & suf & E).
    exists ("{" +++ pre), (suf +++ "}").
    cbn [DateTimeEncoder_text]. rewrite E. cbn [fst snd DateTimeEncoder_text].
    rewrite !append_assoc. reflexivity.
  - apply (json_dumps_JSONEncoder_object r k tn Hin).
Qed.

Lemma DateTimeEncoder_default_falls_through_witness :
  (forall obj, is_temporal obj = false -> DateTimeEncoder_default obj = Ret PNone) /\
  (exists pre suf,
      json_dumps DateTimeEncoder_default (PDict db_archive)
      = Ret (pre +++ encode_basestring_ascii "LatestRestorableTime" +++ ": null" +++ suf)) /\
  (exists msg, json_dumps JSONEncoder_default (PDict db_archive) = Raise (TypeError msg)).
Proof.
  exact (DateTimeEncoder_default_falls_through db_archive "LatestRestorableTime" "Decimal"
           (or_intror (or_intror (or_intror (or_introl eq_refl))))).
Defined.

(** The two encoders on the sample record. *)
Example json_dumps_db_archive :
  json_dumps DateTimeEncoder_default (PDict db_archive)
  = Ret ("{" +++ quote +++ "DBInstanceIdentifier" +++ quote +++ ": "
             +++ quote +++ "archive" +++ quote +++ ", "
             +++ quote +++ "DBInstanceStatus" +++ quote +++ ": "
             +++ quote +++ "stopped" +++ quote +++ ", "
             +++ quote +++ "AllocatedStorage" +++ quote +++ ": 20, "
             +++ quote +++ "LatestRestorableTime" +++ quote +++ ": null}")
  /\ json_dumps JSONEncoder_default (PDict db_archive)
     = Raise (TypeError "Object of type Decimal is not JSON serializable").
Proof. split; reflexivity. Qed.

(** ** C10 *)

(** C10, as amended.  [get_ec2_vm_list] sends the filter on the state code
    [16] and [MaxResults=20] with its listing request, and returns the
    instances of all the pages of the answer, in order.  The limit bounds a
    page, not the list: when every page respects it, the list has at most
    twenty instances for each page. *)
Theorem get_ec2_vm_list_all_pages
    (aws : provider) (t : trace) (pages : list (list Instance)) :
  instances_filter aws t running_filter 20 = (pages, None) ->
  get_ec2_vm_list aws t
    = (Ret (List.concat pages), t ++ [InstancesFilter running_filter 20]) /\
  (Forall (fun page => List.length page <= 20) pages ->
   List.length (List.concat pages) <= 20 * List.length pages).
Proof.
  intro H. split.
  - unfold get_ec2_vm_list.
    change [ {| Name := "instance-state-code";
                Values := [str_int RUNNING_INSTANCES_STATE_CODE] |} ]
      with running_filter.
    rewrite H, append_each_app. reflexivity.
  - intro B. clear H. induction B as [|page pages Hp _ IH]; simpl; [lia|].
    rewrite length_app. lia.
Qed.

Lemma get_ec2_vm_list_all_pages_witness :
  get_ec2_vm_list crowded []
    = (Ret (List.concat [fleet 1 20; fleet 21 1]),
       [] ++ [InstancesFilter running_filter 20]) /\
  (Forall (fun page => List.length page <= 20) [fleet 1 20; fleet 21 1] ->
   List.length (List.concat [fleet 1 20; fleet 21 1])
   <= 20 * List.length [fleet 1 20; fleet 21 1]).
Proof.
  exact (get_ec2_vm_list_all_pages crowded [] [fleet 1 20; fleet 21 1] eq_refl).
Defined.

(** C10, as stated, fails on [crowded], whose pages hold at most twenty
    instances each: the list has twenty-one instances, and the handler makes
    twenty-one stop requests. *)
Lemma get_ec2_vm_list_crowded_counterexample :
  Forall (fun page => List.length page <= 20)
         (fst (instances_filter crowded [] running_filter 20)) /\
  (exists vm_list,
      fst (get_ec2_vm_list crowded []) = Ret vm_list /\ List.length vm_list = 21) /\
  List.length (stop_requests (snd (lambda_handler crowded sample_str PNone PNone []))) = 21.
Proof.
  split; [|split].
  - simpl. repeat constructor.
  - eexists. split; reflexivity.
  - vm_compute. reflexivity.
Qed.


(** * Further properties *)

(** ** The loop over the databases, on a whole list *)

Lemma getitem_Raise (d : record) (key : string) (ex : exn) :
  getitem d key = Raise ex -> ex = KeyError key.
Proof.
  induction d as [|[k v] d IH]; simpl.
  - intros [= <-]. reflexivity.
  - destruct (String.eqb k key); [discriminate | exact IH].
Qed.

(** Without dry run the stop requests of a run are those owed to the records
    of a prefix of the list, in order, and the run makes no call on the
    compute service; the prefix is the whole list when the run returns, and
    the run is ended only by a missing field or by a stop call that raises. *)
Lemma stop_rds_dbs_requests (aws : provider) (str : pyval -> string)
    (l : list record) (t : trace) :
  exists (j : nat) (evs : trace),
    snd (stop_rds_dbs aws str l false t) = t ++ evs /\
    j <= List.length l /\
    db_stop_requests evs = flat_map to_stop (firstn j l) /\
    match fst (stop_rds_dbs aws str l false t) with
    | Ret _ => j = List.length l
    | Raise ex =>
        (exists db key, In db l /\ getitem db key = Raise ex /\
                        (key = "DBInstanceStatus" \/ key = "DBInstanceIdentifier")) \/
        (exists t' v, stop_db_instance aws t' v = Some ex)
    end.
Proof.
  revert t. induction l as [|db rest IH]; intro t.
  - exists 0, []. simpl. rewrite app_nil_r. repeat split; reflexivity.
  - rewrite stop_rds_dbs_cons. cbv zeta. fold (stopping_db db).
    assert (Step : forall (own : list event),
               db_stop_requests own = to_stop db ->
               exists (j : nat) (evs : trace),
                 snd (stop_rds_dbs aws str rest false ((t ++ [stopping_db db]) ++ own))
                   = t ++ evs /\
                 j <= List.length (db :: rest) /\
                 db_stop_requests evs = flat_map to_stop (firstn j (db :: rest)) /\
                 match fst (stop_rds_dbs aws str rest false
                              ((t ++ [stopping_db db]) ++ own)) with
                 | Ret _ => j = List.length (db :: rest)
                 | Raise ex =>
                     (exists db' key, In db' (db :: rest) /\ getitem db' key = Raise ex /\
                        (key = "DBInstanceStatus" \/ key = "DBInstanceIdentifier")) \/
                     (exists t' v, stop_db_instance aws t' v = Some ex)
                 end).
    { intros own Hown.
      destruct (IH ((t ++ [stopping_db db]) ++ own)) as (j & evs & Ht & Hj & Hr & Ho).
      exists (S j), ((stopping_db db :: own) ++ evs).
      split; [|split; [|split]].
      - rewrite Ht, <- !app_assoc. reflexivity.
      - simpl. lia.
      - cbn [firstn flat_map]. rewrite <- Hr, <- Hown.
        change (stopping_db db :: own) with ([stopping_db db] ++ own).
        rewrite !db_stop_requests_app. reflexivity.
      - destruct (fst (stop_rds_dbs aws str rest false _)) as [u|ex].
        + simpl. lia.
        + destruct Ho as [(db' & key & Hin & Hg & Hk)|Hs].
          * left. exists db', key. split; [right; exact Hin | split; [exact Hg | exact Hk]].
          * right. exact Hs. }
    destruct (getitem db "DBInstanceStatus") as [status|ex] eqn:Hs.
    2: { exists 0, [stopping_db db]. simpl.
         split; [reflexivity|]. split; [lia|]. split; [reflexivity|].
         left. exists db, "DBInstanceStatus".
         split; [left; reflexivity | split; [exact Hs | left; reflexivity]]. }
    destruct (getitem db "DBInstanceIdentifier") as [ident|ex] eqn:Hi.
    2: { exists 0, [stopping_db db]. simpl.
         split; [reflexivity|]. split; [lia|]. split; [reflexivity|].
         left. exists db, "DBInstanceIdentifier".
         split; [left; reflexivity | split; [exact Hi | right; reflexivity]]. }
    assert (Owed : to_stop db = if eq_str status "stopped" then [] else [ident]).
    { unfold to_stop. rewrite Hs, Hi. reflexivity. }
    destruct (eq_str status "stopped").
    + apply Step. rewrite Owed. reflexivity.
    + destruct (stop_db_instance aws (t ++ [stopping_db db]) ident) as [ex|] eqn:Hx.
      * exists 1, [stopping_db db; StopDBInstance ident].
        split; [simpl; rewrite <- app_assoc; reflexivity|].
        split; [simpl; lia|].
        split; [cbn [firstn flat_map]; rewrite Owed; reflexivity|].
        right. exists (t ++ [stopping_db db]), ident. exact Hx.
      * apply Step. rewrite Owed. reflexivity.
Qed.

(** X1.  Without dry run, the stop requests [stop_rds_dbs] makes are, in list
    order, the identifiers of the records of a prefix of the list whose
    status is not the string [stopped]: a record that reads [stopped] is
    never asked to stop, and no record is asked twice or out of order.  The
    prefix is the whole list when the call returns; the call fails to return
    only on a record that lacks a field or when a stop call raised. *)
Theorem stop_rds_dbs_requests_in_order (aws : provider) (str : pyval -> string)
    (l : list record) (t : trace) :
  exists (j : nat) (evs : trace),
    snd (stop_rds_dbs aws str l false t) = t ++ evs /\
    j <= List.length l /\
    db_stop_requests evs = flat_map to_stop (firstn j l) /\
    match fst (stop_rds_dbs aws str l false t) with
    | Ret _ => db_stop_requests evs = flat_map to_stop l
    | Raise ex =>
        (exists db key, In db l /\ getitem db key = Raise ex /\ ex = KeyError key /\
                        (key = "DBInstanceStatus" \/ key = "DBInstanceIdentifier")) \/
        (exists t' v, stop_db_instance aws t' v = Some ex)
    end.
Proof.
  destruct (stop_rds_dbs_requests aws str l t) as (j & evs & Ht & Hj & Hr & Ho).
  exists j, evs. split; [exact Ht|]. split; [exact Hj|]. split; [exact Hr|].
  destruct (fst (stop_rds_dbs aws str l false t)) as [u|ex].
  - subst j. rewrite firstn_all in Hr. exact Hr.
  - destruct Ho as [(db & key & Hin & Hg & Hk)|Hs]; [left | right; exact Hs].
    exists db, key. split; [exact Hin|]. split; [exact Hg|].
    split; [apply (getitem_Raise db key ex Hg) | exact Hk].
Qed.

(** X2.  Without dry run, a record the loop reaches that has no
    [DBInstanceStatus] field is logged and then ends the call with a
    [KeyError] for that field: no stop request is made for it, and the
    records after it are neither logged nor stopped. *)
Theorem stop_rds_dbs_missing_status (aws : provider) (str : pyval -> string)
    (l1 : list record) (db : record) (rest : list record) (t0 t : trace) (ex : exn) :
  stop_rds_dbs aws str l1 false t0 = (Ret tt, t) ->
  getitem db "DBInstanceStatus" = Raise ex ->
  stop_rds_dbs aws str (l1 ++ db :: rest) false t0
  = (Raise (KeyError "DBInstanceStatus"), t ++ [stopping_db db]).
Proof.
  intros H1 Hs.
  unfold stop_rds_dbs. rewrite for_each_app.
  fold (stop_rds_dbs aws str l1 false t0). rewrite H1.
  fold (stop_rds_dbs aws str (db :: rest) false t).
  rewrite stop_rds_dbs_cons. cbv zeta. rewrite Hs.
  rewrite (getitem_Raise _ _ _ Hs). reflexivity.
Qed.

Lemma stop_rds_dbs_missing_status_witness :
  stop_rds_dbs healthy sample_str ([db_orders] ++ db_no_status :: [db_orders]) false []
  = (Raise (KeyError "DBInstanceStatus"),
     [stopping_db db_orders; StopDBInstance (PStr "orders")] ++ [stopping_db db_no_status]).
Proof.
  exact (stop_rds_dbs_missing_status healthy sample_str [db_orders] db_no_status
           [db_orders] [] [stopping_db db_orders; StopDBInstance (PStr "orders")]
           (KeyError "DBInstanceStatus") eq_refl eq_refl).
Defined.

(** X3.  Without dry run, a record the loop reaches that has a status but no
    [DBInstanceIdentifier] field ends the call with a [KeyError] for that
    field whatever the status is: also when the status is [stopped], where
    the notice is not logged because its text needs the identifier. *)
Theorem stop_rds_dbs_missing_identifier (aws : provider) (str : pyval -> string)
    (l1 : list record) (db : record) (rest : list record) (t0 t : trace)
    (status : pyval) (ex : exn) :
  stop_rds_dbs aws str l1 false t0 = (Ret tt, t) ->
  getitem db "DBInstanceStatus" = Ret status ->
  getitem db "DBInstanceIdentifier" = Raise ex ->
  stop_rds_dbs aws str (l1 ++ db :: rest) false t0
  = (Raise (KeyError "DBInstanceIdentifier"), t ++ [stopping_db db]).
Proof.
  intros H1 Hs Hi.
  unfold stop_rds_dbs. rewrite for_each_app.
  fold (stop_rds_dbs aws str l1 false t0). rewrite H1.
  fold (stop_rds_dbs aws str (db :: rest) false t).
  rewrite stop_rds_dbs_cons. cbv zeta. rewrite Hs, Hi.
  rewrite (getitem_Raise _ _ _ Hi). reflexivity.
Qed.

Lemma stop_rds_dbs_missing_identifier_witness :
  stop_rds_dbs healthy sample_str ([db_orders] ++ db_no_identifier :: [db_orders]) false []
  = (Raise (KeyError "DBInstanceIdentifier"),
     [stopping_db db_orders; StopDBInstance (PStr "orders")]
     ++ [stopping_db db_no_identifier]).
Proof.
  exact (stop_rds_dbs_missing_identifier healthy sample_str [db_orders] db_no_identifier
           [db_orders] [] [stopping_db db_orders; StopDBInstance (PStr "orders")]
           (PStr "stopped") (KeyError "DBInstanceIdentifier") eq_refl eq_refl eq_refl).
Defined.

(** ** The loop over the virtual machines, and the handler as a whole *)

(** X4.  When the stop call returns for every instance of the list, the
    trace of [turnoff_ec2_vms] is, for each instance in list order, its log
    line followed by its stop request, and nothing else: no [Exception] line,
    and an instance listed twice is logged and stopped twice. *)
Theorem turnoff_ec2_vms_log (aws : provider) (l : list Instance) (d : bool) (t : trace) :
  (forall t' i, In i l -> instance_stop aws t' i false d = None) ->
  turnoff_ec2_vms aws l d t = (Ret tt, t ++ flat_map (stopping_vm d) l).
Proof.
  revert t. induction l as [|i rest IH]; intros t H.
  - simpl. rewrite app_nil_r. reflexivity.
  - rewrite turnoff_ec2_vms_cons. cbv zeta.
    rewrite (H _ i (or_introl eq_refl)).
    rewrite IH by (intros t' j Hj; apply H; right; exact Hj).
    cbn [flat_map]. unfold stopping_vm at 2. rewrite <- !app_assoc. reflexivity.
Qed.

Lemma turnoff_ec2_vms_log_witness :
  turnoff_ec2_vms healthy [vm2; vm1; vm2] true []
  = (Ret tt, [] ++ flat_map (stopping_vm true) [vm2; vm1; vm2]).
Proof.
  apply (turnoff_ec2_vms_log healthy [vm2; vm1; vm2] true []).
  intros t' i _. reflexivity.
Defined.

(** A loop whose turns only add events of one kind only adds events of that
    kind. *)
Lemma for_each_events {A} (P : event -> Prop) (body : A -> M unit) :
  (forall x t, exists evs, snd (body x t) = t ++ evs /\ Forall P evs) ->
  forall l t, exists evs, snd (for_each l body t) = t ++ evs /\ Forall P evs.
Proof.
  intros H l. induction l as [|x l IH]; intro t; cbn [for_each].
  - exists []. unfold ret. simpl. rewrite app_nil_r. split; constructor.
  - unfold bind. destruct (H x t) as (e1 & E1 & F1).
    destruct (body x t) as [[u|ex] t']; simpl in E1; subst t'.
    + destruct (IH (t ++ e1)) as (e2 & E2 & F2).
      exists (e1 ++ e2). rewrite E2, <- app_assoc.
      split; [reflexivity | apply Forall_app; split; assumption].
    + exists e1. split; [reflexivity | exact F1].
Qed.

Lemma turnoff_ec2_vms_no_db_call (aws : provider) (l : list Instance) (d : bool)
    (t : trace) :
  exists evs, snd (turnoff_ec2_vms aws l d t) = t ++ evs
              /\ Forall (fun e => is_db_call e = false) evs.
Proof.
  unfold turnoff_ec2_vms. apply for_each_events. clear t l. intros i t.
  unfold bind, print, try_except_ClientError, call_instance_stop.
  destruct (instance_stop aws _ i false d) as [ex|].
  - destruct (is_ClientError ex); eexists;
      (split; [simpl; rewrite <- !app_assoc; reflexivity
              | repeat constructor]).
  - eexists. split; [simpl; rewrite <- !app_assoc; reflexivity | repeat constructor].
Qed.

Lemma stop_rds_dbs_no_vm_call (aws : provider) (str : pyval -> string)
    (l : list record) (d : bool) (t : trace) :
  exists evs, snd (stop_rds_dbs aws str l d t) = t ++ evs
              /\ Forall (fun e => is_vm_call e = false) evs.
Proof.
  unfold stop_rds_dbs. apply for_each_events. clear t l. intros db t.
  unfold bind, lift, print, call_stop_db_instance.
  rewrite json_dumps_DateTimeEncoder.
  destruct d.
  { eexists. split; [reflexivity | repeat constructor]. }
  destruct (getitem db "DBInstanceStatus") as [status|ex].
  2: { eexists. split; [reflexivity | repeat constructor]. }
  destruct (eq_str status "stopped");
    destruct (getitem db "DBInstanceIdentifier") as [ident|ex];
    try (eexists; split; [simpl; rewrite <- ?app_assoc; reflexivity
                         | repeat constructor]).
  destruct (stop_db_instance aws _ ident);
    eexists; (split; [simpl; rewrite <- ?app_assoc; reflexivity | repeat constructor]).
Qed.

Lemma no_db_call_requests (evs : trace) :
  Forall (fun e => is_db_call e = false) evs -> db_stop_requests evs = [].
Proof.
  induction 1 as [|e evs He _ IH]; [reflexivity|].
  destruct e; simpl in *; try exact IH; discriminate He.
Qed.

(** X5.  When the listing of the instances fails, also after pages of it
    were fetched, [lambda_handler] raises the exception of the listing: the
    instances of the pages fetched are dropped, nothing is stopped and the
    databases are not listed. *)
Theorem lambda_handler_vm_listing_failure
    (aws : provider) (str : pyval -> string) (event context : pyval) (t : trace)
    (pages : list (list Instance)) (ex : exn) :
  instances_filter aws (t ++ [Print "getting vm list"]) running_filter 20
    = (pages, Some ex) ->
  lambda_handler aws str event context t
  = (Raise ex, t ++ [Print "getting vm list"; InstancesFilter running_filter 20]).
Proof.
  intro H. unfold lambda_handler, bind, print, get_ec2_vm_list.
  change [ {| Name := "instance-state-code";
              Values := [str_int RUNNING_INSTANCES_STATE_CODE] |} ]
    with running_filter.
  rewrite H, <- app_assoc. reflexivity.
Qed.

Lemma lambda_handler_vm_listing_failure_witness :
  lambda_handler vm_listing_fails sample_str PNone PNone []
  = (Raise (ClientError "An error occurred (RequestLimitExceeded) when calling the DescribeInstances operation"),
     [] ++ [Print "getting vm list"; InstancesFilter running_filter 20]).
Proof.
  exact (lambda_handler_vm_listing_failure vm_listing_fails sample_str PNone PNone []
           [[vm1; vm2]]
           (ClientError "An error occurred (RequestLimitExceeded) when calling the DescribeInstances operation")
           eq_refl).
Defined.

(** X6.  When the instances were listed and their loop returned, and the
    listing of the databases then fails, also after pages of it were
    fetched, [lambda_handler] raises the exception of that listing: the
    records fetched are dropped and no database is logged or stopped, while
    the stop requests on the instances have been made. *)
Theorem lambda_handler_db_listing_failure
    (aws : provider) (str : pyval -> string) (event context : pyval) (t t2 t3 : trace)
    (vm_list : list Instance) (pages : list Page) (ex : exn) :
  get_ec2_vm_list aws (t ++ [Print "getting vm list"]) = (Ret vm_list, t2) ->
  turnoff_ec2_vms aws vm_list false (t2 ++ [Print "got ec2 list"]) = (Ret tt, t3) ->
  describe_db_instances aws t3 = (pages, Some ex) ->
  lambda_handler aws str event context t
  = (Raise ex, t3 ++ [Paginate_describe_db_instances]).
Proof.
  intros H1 H2 H3. unfold lambda_handler, bind, print.
  rewrite H1, H2. unfold get_rds_db_list. rewrite H3. reflexivity.
Qed.

Lemma lambda_handler_db_listing_failure_witness :
  lambda_handler db_listing_fails sample_str PNone PNone []
  = (Raise (BotoCoreError "Could not connect to the endpoint URL"),
     [Print "getting vm list"; InstancesFilter running_filter 20; Print "got ec2 list";
      Print "Stopping VM: i-0a1"; InstanceStop vm1 false false]
     ++ [Paginate_describe_db_instances]).
Proof.
  exact (lambda_handler_db_listing_failure db_listing_fails sample_str PNone PNone []
           [Print "getting vm list"; InstancesFilter running_filter 20]
           [Print "getting vm list"; InstancesFilter running_filter 20;
            Print "got ec2 list";
            Print "Stopping VM: i-0a1"; InstanceStop vm1 false false]
           [vm1] [ {| DBInstances := [db_orders] |} ]
           (BotoCoreError "Could not connect to the endpoint URL")
           eq_refl eq_refl eq_refl).
Defined.

(** X7.  In every invocation the calls on the compute service come before
    the calls on the database service, and the database service is called
    only if the instances were listed and their loop returned, every listed
    instance having had its stop request with [DryRun=False]. *)
Theorem lambda_handler_phases
    (aws : provider) (str : pyval -> string) (event context : pyval) (t : trace) :
  exists vm_evs db_evs,
    snd (lambda_handler aws str event context t) = t ++ vm_evs ++ db_evs /\
    Forall (fun e => is_db_call e = false) vm_evs /\
    Forall (fun e => is_vm_call e = false) db_evs /\
    (db_evs <> [] ->
     exists vm_list t2 t3,
       get_ec2_vm_list aws (t ++ [Print "getting vm list"]) = (Ret vm_list, t2) /\
       turnoff_ec2_vms aws vm_list false (t2 ++ [Print "got ec2 list"]) = (Ret tt, t3) /\
       stop_requests vm_evs = map (fun i => (i, false, false)) vm_list).
Proof.
  unfold lambda_handler, bind, print.
  set (t1 := t ++ [Print "getting vm list"]).
  pose proof (get_ec2_vm_list_trace aws t1) as H2.
  destruct (get_ec2_vm_list aws t1) as [[vm_list|ex] t2]; simpl in H2; subst t2.
  2: { exists [Print "getting vm list"; InstancesFilter running_filter 20], [].
       unfold t1. simpl. rewrite <- app_assoc.
       repeat split; try (repeat constructor). intro H. contradiction. }
  set (t2 := (t1 ++ [InstancesFilter running_filter 20]) ++ [Print "got ec2 list"]).
  set (head := [Print "getting vm list"; InstancesFilter running_filter 20;
                Print "got ec2 list"]).
  assert (P2 : forall evs, t2 ++ evs = t ++ head ++ evs).
  { intro evs. unfold t2, t1, head. rewrite <- !app_assoc. reflexivity. }
  destruct (turnoff_ec2_vms_requests aws vm_list false t2)
    as (k & evs1 & H3 & _ & Hr & Ho).
  destruct (turnoff_ec2_vms_no_db_call aws vm_list false t2) as (evs1' & H3' & F1).
  assert (evs1' = evs1) by (rewrite H3 in H3'; apply app_inv_head in H3'; congruence).
  subst evs1'.
  assert (Fh : Forall (fun e => is_db_call e = false) (head ++ evs1)).
  { apply Forall_app. split; [repeat constructor | exact F1]. }
  destruct (turnoff_ec2_vms aws vm_list false t2) as [[[]|ex] t3] eqn:T;
    simpl in H3, Ho; subst t3.
  2: { exists (head ++ evs1), []. simpl snd. rewrite app_nil_r.
       split; [apply P2|]. split; [exact Fh|]. split; [constructor|].
       intro H. contradiction. }
  subst k. rewrite firstn_all in Hr.
  assert (Rq : stop_requests (head ++ evs1) = map (fun i => (i, false, false)) vm_list).
  { rewrite stop_requests_app. simpl. exact Hr. }
  pose proof (get_rds_db_list_trace aws (t2 ++ evs1)) as H4.
  destruct (get_rds_db_list aws (t2 ++ evs1)) as [[db_list|ex] t4]; simpl in H4; subst t4.
  2: { exists (head ++ evs1), [Paginate_describe_db_instances]. simpl snd.
       split; [rewrite P2, <- !app_assoc; reflexivity|].
       split; [exact Fh|]. split; [repeat constructor|].
       intros _. exists vm_list, (t1 ++ [InstancesFilter running_filter 20]), (t2 ++ evs1).
       split; [reflexivity|]. split; [exact T | exact Rq]. }
  destruct (stop_rds_dbs_no_vm_call aws str db_list false
              ((t2 ++ evs1) ++ [Paginate_describe_db_instances]))
    as (evs2 & H5 & F2).
  exists (head ++ evs1), (Paginate_describe_db_instances :: evs2).
  split; [rewrite H5, P2, <- !app_assoc; reflexivity|].
  split; [exact Fh|]. split; [constructor; [reflexivity | exact F2]|].
  intros _. exists vm_list, (t1 ++ [InstancesFilter running_filter 20]), (t2 ++ evs1).
  split; [reflexivity|]. split; [exact T | exact Rq].
Qed.

(** X8.  When both listings succeed, the stop calls on the instances raise
    nothing but client errors, every listed record has its two fields and
    the stop calls on the databases return, [lambda_handler] returns having
    made one stop request, with [DryRun=False], for each listed instance of
    every page, in order, and one stop request for each listed database of
    every page whose status is not [stopped], in order. *)
Theorem lambda_handler_stops_everything
    (aws : provider) (str : pyval -> string) (event context : pyval) (t : trace)
    (vm_pages : list (list Instance)) (db_pages : list Page) :
  instances_filter aws (t ++ [Print "getting vm list"]) running_filter 20
    = (vm_pages, None) ->
  (forall t' i ex, instance_stop aws t' i false false = Some ex ->
                   is_ClientError ex = true) ->
  (forall t', describe_db_instances aws t' = (db_pages, None)) ->
  (forall db, In db (List.concat (map DBInstances db_pages)) ->
              exists status ident,
                getitem db "DBInstanceStatus" = Ret status /\
                getitem db "DBInstanceIdentifier" = Ret ident) ->
  (forall t' v, stop_db_instance aws t' v = None) ->
  exists evs,
    lambda_handler aws str event context t = (Ret tt, t ++ evs) /\
    stop_requests evs = map (fun i => (i, false, false)) (List.concat vm_pages) /\
    db_stop_requests evs = flat_map to_stop (List.concat (map DBInstances db_pages)).
Proof.
  intros Hl Hc Hd Hw Hs.
  unfold lambda_handler, bind, print.
  set (t1 := t ++ [Print "getting vm list"]).
  assert (G : get_ec2_vm_list aws t1
              = (Ret (List.concat vm_pages), t1 ++ [InstancesFilter running_filter 20])).
  { unfold get_ec2_vm_list.
    change [ {| Name := "instance-state-code";
                Values := [str_int RUNNING_INSTANCES_STATE_CODE] |} ]
      with running_filter.
    fold t1 in Hl. rewrite Hl, append_each_app. reflexivity. }
  rewrite G.
  set (vm_list := List.concat vm_pages).
  set (t2 := (t1 ++ [InstancesFilter running_filter 20]) ++ [Print "got ec2 list"]).
  set (head := [Print "getting vm list"; InstancesFilter running_filter 20;
                Print "got ec2 list"]).
  assert (P2 : forall evs, t2 ++ evs = t ++ head ++ evs).
  { intro evs. unfold t2, t1, head. rewrite <- !app_assoc. reflexivity. }
  destruct (turnoff_ec2_vms_requests aws vm_list false t2)
    as (k & evs1 & H3 & _ & Hr & Ho).
  destruct (turnoff_ec2_vms_no_db_call aws vm_list false t2) as (evs1' & H3' & F1).
  assert (evs1' = evs1) by (rewrite H3 in H3'; apply app_inv_head in H3'; congruence).
  subst evs1'.
  pose proof (turnoff_ec2_vms_returns aws vm_list false t2 Hc) as R.
  rewrite R in Ho. subst k. rewrite firstn_all in Hr.
  destruct (turnoff_ec2_vms aws vm_list false t2) as [o t3]; simpl in H3, R; subst o t3.
  assert (L : get_rds_db_list aws (t2 ++ evs1)
              = (Ret (List.concat (map DBInstances db_pages)),
                 (t2 ++ evs1) ++ [Paginate_describe_db_instances])).
  { unfold get_rds_db_list. rewrite Hd, drain_pages. reflexivity. }
  rewrite L.
  set (db_list := List.concat (map DBInstances db_pages)) in *.
  set (t4 := (t2 ++ evs1) ++ [Paginate_describe_db_instances]).
  destruct (stop_rds_dbs_requests aws str db_list t4) as (j & evs2 & H5 & _ & Hq & Hb).
  destruct (stop_rds_dbs_trace aws str db_list false t4) as (evs2' & H5' & N2).
  assert (evs2' = evs2) by (rewrite H5 in H5'; apply app_inv_head in H5'; congruence).
  subst evs2'.
  destruct (stop_rds_dbs aws str db_list false t4) as [[[]|ex] t5];
    simpl in H5, Hb; subst t5.
  - subst j. rewrite firstn_all in Hq.
    exists (head ++ evs1 ++ [Paginate_describe_db_instances] ++ evs2).
    split; [|split].
    + unfold t4. rewrite <- !app_assoc. rewrite P2. reflexivity.
    + rewrite !stop_requests_app. simpl. rewrite N2, app_nil_r. exact Hr.
    + rewrite !db_stop_requests_app. simpl.
      rewrite (no_db_call_requests evs1 F1). exact Hq.
  - exfalso. destruct Hb as [(db & key & Hin & Hg & Hk)|(t' & v & Hx)].
    + destruct (Hw db Hin) as (status & ident & Es & Ei).
      destruct Hk as [-> | ->]; [rewrite Es in Hg | rewrite Ei in Hg]; discriminate Hg.
    + rewrite Hs in Hx. discriminate Hx.
Qed.

Lemma lambda_handler_stops_everything_witness :
  exists evs,
    lambda_handler healthy sample_str PNone PNone [] = (Ret tt, [] ++ evs) /\
    stop_requests evs
    = map (fun i => (i, false, false)) (List.concat [[vm1; vm2]; [vm3]]) /\
    db_stop_requests evs
    = flat_map to_stop
        (List.concat (map DBInstances [ {| DBInstances := [db_orders] |};
                                        {| DBInstances := [db_archive] |} ])).
Proof.
  apply (lambda_handler_stops_everything healthy sample_str PNone PNone []
           [[vm1; vm2]; [vm3]]
           [ {| DBInstances := [db_orders] |}; {| DBInstances := [db_archive] |} ]).
  - reflexivity.
  - intros t' i ex H. discriminate H.
  - intro t'. reflexivity.
  - intros db [<-|[<-|[]]]; eexists; eexists; split; reflexivity.
  - intros t' v. reflexivity.
Defined.

(** ** The encoder *)





(** The text of the record with the nested datetime. *)
Example json_dumps_db_certified :
  json_dumps DateTimeEncoder_default (PDict db_certified)
  = Ret ("{" +++ quote +++ "DBInstanceIdentifier" +++ quote +++ ": "
             +++ quote +++ "ledger" +++ quote +++ ", "
             +++ quote +++ "DBInstanceStatus" +++ quote +++ ": "
             +++ quote +++ "available" +++ quote +++ ", "
             +++ quote +++ "CertificateDetails" +++ quote +++ ": {"
             +++ quote +++ "CAIdentifier" +++ quote +++ ": "
             +++ quote +++ "rds-ca-rsa2048-g1" +++ quote +++ ", "
             +++ quote +++ "ValidTill" +++ quote +++ ": ["
             +++ quote +++ "2024-03-07T09:05:00+00:00" +++ quote +++ "]}}")
  /\ nesting (PDict db_certified) = 3.
Proof. split; reflexivity. Qed.










(** The text of the record with the unusual characters. *)
Example json_dumps_db_noisy :
  json_dumps DateTimeEncoder_default (PDict db_noisy)
  = Ret ("{" +++ quote +++ "DBInstanceIdentifier" +++ quote +++ ": "
             +++ quote +++ "a\nb" +++ quote +++ ", "
             +++ quote +++ "DBInstanceStatus" +++ quote +++ ": "
             +++ quote +++ "available" +++ quote +++ ", "
             +++ quote +++ "TagList" +++ quote +++ ": [{"
             +++ quote +++ "Key" +++ quote +++ ": "
             +++ quote +++ "\tk\\\" +++ quote +++ quote +++ ", "
             +++ quote +++ "Value" +++ quote +++ ": "
             +++ quote +++ "\u00e9" +++ quote +++ "}]}").
Proof. reflexivity. Qed.

(** A string with a line break, a double quote and a character outside
    ASCII. *)
Example json_dumps_escapes :
  json_dumps DateTimeEncoder_default
    (PStr ("a" +++ String (ascii_of_N 10) "b" +++ quote +++ String (ascii_of_N 233) ""))
  = Ret (quote +++ "a\nb\" +++ quote +++ "\u00e9" +++ quote).
Proof. reflexivity. Qed.
